(** * django_apscheduler: execution records, retention, run-now and the task registry

    A shallow embedding of the parts of [apscheduler/models.py],
    [apscheduler/admin.py], [apscheduler/descovertasks.py] and
    [apscheduler/run.py] that decide the behaviour of the execution-record
    reconciler ([DjangoJobExecution.atomic_update_or_create]), the retention
    cleanup ([DjangoJobExecutionManager.delete_old_job_executions]), the
    admin action [run_selected_jobs], the task registry ([discover_tasks],
    [task_func]) and the decorator [reg_job].

    Modelling conventions.
    - A [datetime] is an instant counted in microseconds (the resolution of
      Python's [datetime]); a [timedelta] is a number of microseconds.
      [total_seconds] and [timestamp] return seconds as exact rationals with
      denominator [10^6]; the rounding of Python's [float] is not modelled.
    - The database is the list of the primary keys of the job table, the
      list of the rows of the execution table in insertion order, and the
      next value of the [BigAutoField] sequence of the execution table.
    - An instance in memory and a row of the table are both records of type
      [DjangoJobExecution].  They differ in [duration] and [finished]: the
      instance holds the number it was given, the row what the
      [DecimalField(max_digits=15, decimal_places=2)] column keeps of it.
    - Python's [None] for an optional value is [None]; a function that may
      raise returns a [result].
    - The clock ([timezone.now()]) is an explicit argument [now].
    - [with lock:] serialises the calls, so a call is one atomic step on the
      database; the lock itself is not represented.  [OperationalError],
      which [util.retry_on_db_operational_error] retries, and the length
      limits of the character columns are outside the model. *)

From Stdlib Require Import ZArith QArith List String Bool Lia ListSet.
Import ListNotations.

Open Scope string_scope.
Open Scope list_scope.
Open Scope Z_scope.

(** ** Time *)

Definition datetime : Type := Z.
Definition timedelta : Type := Z.

(** [timedelta(seconds=s)] *)
Definition timedelta_seconds (s : Z) : timedelta := s * 1000000.

(** [timedelta.total_seconds()] *)
Definition total_seconds (d : timedelta) : Q := Qmake d 1000000.

(** [datetime.timestamp()] *)
Definition timestamp (t : datetime) : Q := Qmake t 1000000.

(** ** Exceptions and results *)

Inductive exn : Type :=
| DoesNotExist
| MultipleObjectsReturned
| IntegrityError
| TaskNotFoundError.

Inductive result (A : Type) : Type :=
| Ok (a : A)
| Raise (e : exn).

Arguments Ok {A} a.
Arguments Raise {A} e.

Definition bind {A B : Type} (m : result A) (k : A -> result B) : result B :=
  match m with
  | Ok a => k a
  | Raise e => Raise e
  end.

Notation "x <- m ;; k" := (bind m (fun x => k))
  (at level 61, m at next level, right associativity).

(** Python truthiness of an optional string: [None] and the empty string are
    falsy. *)
Definition truthy (s : option string) : bool :=
  match s with
  | None => false
  | Some s => negb (String.eqb s "")
  end.

(** ** The execution-record model ([models.py], class [DjangoJobExecution]) *)

Definition SENT : string := "开始执行".
Definition SUCCESS : string := "正在执行".
Definition MISSED : string := "任务丢失".
Definition MAX_INSTANCES : string := "实例阻塞".
Definition ERROR : string := "任务错误".

Definition STATUS_CHOICES : list (string * string) :=
  map (fun x => (x, x)) [SENT; ERROR; SUCCESS].

Record DjangoJobExecution : Type := mkExecution {
  id : Z;
  job_id : string;
  status : string;
  run_time : datetime;
  duration : option Q;
  finished : option Q;
  exception : option string;
  traceback : option string
}.

Definition set_finished (v : option Q) (r : DjangoJobExecution) :=
  mkExecution (id r) (job_id r) (status r) (run_time r) (duration r) v
              (exception r) (traceback r).
Definition set_duration (v : option Q) (r : DjangoJobExecution) :=
  mkExecution (id r) (job_id r) (status r) (run_time r) v (finished r)
              (exception r) (traceback r).
Definition set_status (v : string) (r : DjangoJobExecution) :=
  mkExecution (id r) (job_id r) v (run_time r) (duration r) (finished r)
              (exception r) (traceback r).
Definition set_exception (v : option string) (r : DjangoJobExecution) :=
  mkExecution (id r) (job_id r) (status r) (run_time r) (duration r)
              (finished r) v (traceback r).
Definition set_traceback (v : option string) (r : DjangoJobExecution) :=
  mkExecution (id r) (job_id r) (status r) (run_time r) (duration r)
              (finished r) (exception r) v.

(** The row an existing row [r] becomes under a terminal event, as the
    instance in memory holds it. *)
Definition overwritten (st : string) (dur fin : Q) (exc tb : option string)
    (r : DjangoJobExecution) : DjangoJobExecution :=
  mkExecution (id r) (job_id r) st (run_time r) (Some dur) (Some fin)
              (if truthy exc then exc else exception r)
              (if truthy tb then tb else traceback r).

(** The database: the primary keys of the rows of the [DjangoJob] table,
    the rows of the execution table and the next value of its primary-key
    sequence. *)
Record database : Type := mkDatabase {
  jobs : list string;
  rows : list DjangoJobExecution;
  next_id : Z
}.

(** No execution recorded yet, for the jobs [js]. *)
Definition empty_database (js : list string) : database := mkDatabase js [] 1.

(** Whether the [DjangoJob] table has a row with primary key [j]: what the
    [ForeignKey] of [DjangoJobExecution.job] requires. *)
Definition job_exists (db : database) (j : string) : bool :=
  existsb (String.eqb j) (jobs db).

(** The pair of the constraint [unique_job_executions]. *)
Definition key_matches (j : string) (t : datetime) (r : DjangoJobExecution) : bool :=
  String.eqb (job_id r) j && (run_time r =? t).

(** [objects.select_for_update().get(job_id=..., run_time=...)] *)
Definition objects_get (db : database) (j : string) (t : datetime)
  : result DjangoJobExecution :=
  match filter (key_matches j t) (rows db) with
  | [] => Raise DoesNotExist
  | [r] => Ok r
  | _ :: _ :: _ => Raise MultipleObjectsReturned
  end.

(** [UPDATE ... WHERE id = r.id] *)
Definition update_row (r : DjangoJobExecution) (l : list DjangoJobExecution)
  : list DjangoJobExecution :=
  map (fun x => if id x =? id r then r else x) l.

(** The rounding to hundredths, half to even, that
    [DecimalField(max_digits=15, decimal_places=2)] performs on an exact
    value: the result has denominator [100]. *)
Definition two_decimal_places (q : Q) : Q :=
  let n := Qnum q * 100 in
  let d := Zpos (Qden q) in
  let hundredths := n / d in
  let rest := n mod d in
  Qmake (if 2 * rest <? d then hundredths
         else if d <? 2 * rest then hundredths + 1
         else if Z.even hundredths then hundredths
         else hundredths + 1)
        100.

Section Table.

(** What the columns [duration] and [finished], both
    [DecimalField(max_digits=15, decimal_places=2)], keep of a number
    written to them.  Django makes the conversion, from the float that the
    instance holds: it is a parameter of the development, and
    [two_decimal_places] is the instance used on concrete data. *)
Variable to_decimal : Q -> Q.

(** The row that writing the instance [r] leaves in the table. *)
Definition as_stored (r : DjangoJobExecution) : DjangoJobExecution :=
  mkExecution (id r) (job_id r) (status r) (run_time r)
              (option_map to_decimal (duration r))
              (option_map to_decimal (finished r))
              (exception r) (traceback r).

(** [objects.create(...)]: the instance gets the next primary key and is
    written as a new row.  The insertion is refused when the job table has
    no row for [job_id] ([ForeignKey]) or when the pair is already taken
    ([UniqueConstraint]).  The call returns the instance, which holds the
    numbers it was given. *)
Definition objects_create (db : database) (j : string) (t : datetime)
    (st : string) (dur fin : option Q) (exc tb : option string)
  : result (database * DjangoJobExecution) :=
  if negb (job_exists db j) then Raise IntegrityError
  else if existsb (key_matches j t) (rows db) then Raise IntegrityError
  else
    let r := mkExecution (next_id db) j st t dur fin exc tb in
    Ok (mkDatabase (jobs db) (rows db ++ [as_stored r]) (next_id db + 1), r).

(** [instance.save()]: an [UPDATE] of the row with the instance's primary
    key (an [INSERT] when there is none), refused when another row holds the
    instance's pair.  The reconciler saves an instance it has just read and
    does not change its job, so the foreign key of the row is not at
    stake. *)
Definition save (r : DjangoJobExecution) (db : database) : result database :=
  if existsb (fun x => key_matches (job_id r) (run_time r) x && negb (id x =? id r))
             (rows db)
  then Raise IntegrityError
  else if existsb (fun x => id x =? id r) (rows db)
  then Ok (mkDatabase (jobs db) (update_row (as_stored r) (rows db))
                      (next_id db))
  else Ok (mkDatabase (jobs db) (rows db ++ [as_stored r])
                      (Z.max (next_id db) (id r + 1))).

(** [util.get_django_internal_datetime]: the conversion of a datetime to the
    representation Django stores.  [util] is not among the modelled files, so
    the conversion is a parameter of the development. *)
Variable get_django_internal_datetime : datetime -> datetime.

(** [DjangoJobExecution.atomic_update_or_create] *)
Definition atomic_update_or_create (db : database) (now : datetime)
    (job_id : string) (run_time : datetime) (status : string)
    (exception traceback : option string)
  : result (database * DjangoJobExecution) :=
  let run_time := get_django_internal_datetime run_time in
  let finished := get_django_internal_datetime now in
  let duration := total_seconds (finished - run_time) in
  let finished := timestamp finished in
  match objects_get db job_id run_time with
  | Ok job_execution =>
      if String.eqb status SENT then Ok (db, job_execution)
      else
        let job_execution := set_finished (Some finished) job_execution in
        let job_execution := set_duration (Some duration) job_execution in
        let job_execution := set_status status job_execution in
        let job_execution :=
          if truthy exception then set_exception exception job_execution
          else job_execution in
        let job_execution :=
          if truthy traceback then set_traceback traceback job_execution
          else job_execution in
        db' <- save job_execution db ;;
        Ok (db', job_execution)
  | Raise DoesNotExist =>
      let '(finished, duration) :=
        if String.eqb status SENT then (None, None)
        else (Some finished, Some duration) in
      objects_create db job_id run_time status duration finished
                     exception traceback
  | Raise e => Raise e
  end.

End Table.

(** ** Events and their delivery *)

(** A scheduler event as the listeners hand it to the reconciler. *)
Record event : Type := mkEvent {
  ev_job_id : string;
  ev_run_time : datetime;
  ev_status : string;
  ev_exception : option string;
  ev_traceback : option string
}.

Section Delivery.

Variable to_decimal : Q -> Q.
Variable get_django_internal_datetime : datetime -> datetime.

(** One call of the reconciler for an event, at clock reading [now]. *)
Definition recordEvent (db : database) (now : datetime) (e : event)
  : result (database * DjangoJobExecution) :=
  atomic_update_or_create to_decimal get_django_internal_datetime db now
    (ev_job_id e) (ev_run_time e) (ev_status e) (ev_exception e) (ev_traceback e).

(** The database after a delivery: a call that raises leaves it as it
    was. *)
Definition deliver (db : database) (d : datetime * event) : database :=
  match recordEvent db (fst d) (snd d) with
  | Ok (db', _) => db'
  | Raise _ => db
  end.

(** The databases after each delivery of a sequence, in order. *)
Fixpoint history (db : database) (ds : list (datetime * event)) : list database :=
  match ds with
  | [] => []
  | d :: ds' => let db' := deliver db d in db' :: history db' ds'
  end.

End Delivery.

(** ** Well-formed tables *)

Definition key (r : DjangoJobExecution) : string * datetime :=
  (job_id r, run_time r).

(** At most one row per (job_id, run_time) pair. *)
Definition unique_job_executions (db : database) : Prop :=
  NoDup (map key (rows db)).

(** Primary keys are distinct and were all drawn from the sequence. *)
Definition primary_keys_ok (db : database) : Prop :=
  NoDup (map id (rows db)) /\ Forall (fun i => i < next_id db) (map id (rows db)).

Definition well_formed (db : database) : Prop :=
  primary_keys_ok db /\ unique_job_executions db.

(** A status other than [SENT]. *)
Definition terminal (st : string) : Prop := st <> SENT.

(** ** Retention cleanup ([DjangoJobExecutionManager]) *)

(** [delete_old_job_executions]: the rows selected by
    [run_time__lte = now - timedelta(seconds=max_age)] are deleted. *)
Definition delete_old_job_executions (db : database) (now : datetime)
    (max_age : Z) : database :=
  mkDatabase
    (jobs db)
    (filter (fun r => negb (run_time r <=? now - timedelta_seconds max_age))
            (rows db))
    (next_id db).

(** Modelled from the spec: the removal of the job definition [j] ("deleted
    when the job is removed or its trigger is exhausted"), which the job
    store performs and [TimedTaskConfig.save] asks for through
    [scheduler.remove_job]; the job store is not among the modelled files.
    The effect on the execution table is the source's: the foreign key
    [DjangoJobExecution.job] is declared with [on_delete=models.CASCADE], so
    the executions of the job go with it. *)
Definition delete_job_cascade (db : database) (j : string) : database :=
  mkDatabase (filter (fun i => negb (String.eqb i j)) (jobs db))
             (filter (fun r => negb (String.eqb (job_id r) j)) (rows db))
             (next_id db).

(** The age of a row at [now], in microseconds. *)
Definition age (now : datetime) (r : DjangoJobExecution) : timedelta :=
  now - run_time r.

(** A record is Submitted exactly when its completion fields are null. *)
Definition completion_matches_status (db : database) : Prop :=
  forall r, In r (rows db) ->
    (status r = SENT -> duration r = None /\ finished r = None)
    /\ (status r <> SENT -> duration r <> None /\ finished r <> None).

(** The operations on the execution table: a delivery to the reconciler at a
    clock reading, and a retention cleanup at a clock reading. *)
Inductive operation : Type :=
| Deliver (now : datetime) (e : event)
| Cleanup (now : datetime) (max_age : Z).

Section Operations.

Variable to_decimal : Q -> Q.
Variable get_django_internal_datetime : datetime -> datetime.

Definition apply_operation (db : database) (o : operation) : database :=
  match o with
  | Deliver now e => deliver to_decimal get_django_internal_datetime db (now, e)
  | Cleanup now max_age => delete_old_job_executions db now max_age
  end.

End Operations.

(** ** The task registry ([descovertasks.py]) *)

Module Descovertasks.

Section Registry.

(** What a task's [func] is: a Python callable, left abstract. *)
Variable callable : Type.

Record Task : Type := mkTask {
  name : string;
  func : callable;
  docs : string
}.

(** The test [task.name == name] of the loop. *)
Definition name_is (n : string) (task : Task) : bool :=
  String.eqb (name task) n.

(** [task_func(name)]: the [func] of the first task of [task_list] with that
    name; the loop falls through to [return None].  No statement of the
    function raises, so every result is an [Ok]. *)
Fixpoint task_func (task_list : list Task) (name : string)
  : result (option callable) :=
  match task_list with
  | [] => Ok None
  | task :: rest =>
      if name_is name task then Ok (Some (func task))
      else task_func rest name
  end.

(** The names the registry holds. *)
Definition registered (task_list : list Task) (n : string) : Prop :=
  In n (map name task_list).

(** An object of a tasks module as [inspect.getmembers] yields it under its
    name: the object when it is callable, and its [__doc__]. *)
Record member : Type := mkMember {
  member_name : string;
  member_object : option callable;
  member_doc : option string
}.

(** What [importlib.import_module(f"{app.name}.tasks")] does for an app: it
    raises [ModuleNotFoundError], raises another exception, or returns the
    module, given here by its members. *)
Inductive import_outcome : Type :=
| module_not_found
| import_fails
| imported (members : list member).

Record app : Type := mkApp {
  app_name : string;
  tasks_import : import_outcome
}.

(** The body of the loop over the members of a module. *)
Definition discover_member (task_list : list Task) (m : member) : list Task :=
  match member_object m with
  | Some task_func =>
      if String.prefix "task_" (member_name m) then
        let task_docs :=
          match member_doc m with
          | Some d => if String.eqb d "" then member_name m else d
          | None => member_name m
          end in
        task_list ++ [mkTask (member_name m) task_func task_docs]
      else task_list
  | None => task_list
  end.

(** [discover_tasks()]: the registry after the loop over the registered
    apps, or [None] when an import raises something other than
    [ModuleNotFoundError], which the function lets through. *)
Fixpoint discover_tasks (registered_apps : list app) (task_list : list Task)
  : option (list Task) :=
  match registered_apps with
  | [] => Some task_list
  | a :: rest =>
      match tasks_import a with
      | module_not_found => discover_tasks rest task_list
      | import_fails => None
      | imported members =>
          discover_tasks rest (fold_left discover_member members task_list)
      end
  end.

End Registry.

Arguments mkTask {callable} _ _ _.
Arguments name {callable} _.
Arguments func {callable} _.
Arguments docs {callable} _.
Arguments name_is {callable} _ _.
Arguments task_func {callable} _ _.
Arguments registered {callable} _ _.
Arguments mkMember {callable} _ _ _.
Arguments member_name {callable} _.
Arguments member_object {callable} _.
Arguments member_doc {callable} _.
Arguments module_not_found {callable}.
Arguments import_fails {callable}.
Arguments imported {callable} _.
Arguments mkApp {callable} _ _.
Arguments app_name {callable} _.
Arguments tasks_import {callable} _.
Arguments discover_member {callable} _ _.
Arguments discover_tasks {callable} _ _.

End Descovertasks.

(** ** The run-now action ([admin.py], [DjangoJobAdmin.run_selected_jobs]) *)

Module DjangoJob.

(** A row of the job table, as the admin's queryset yields it. *)
Record t : Type := mk {
  id : string;
  next_run_time : option datetime;
  job_state : string
}.

End DjangoJob.

Module Admin.

Module Job.

(** The scheduler's job object that [lookup_job] returns. *)
Record t : Type := mk {
  func_ref : string;
  args : list string;
  kwargs : list (string * string);
  id : string;
  name : string;
  misfire_grace_time : option Z;
  coalesce : bool;
  max_instances : Z
}.

End Job.

(** The arguments of one call of [scheduler.add_job]. *)
Record add_job_call : Type := mkCall {
  func : string;
  trigger : option string;
  args : list string;
  kwargs : list (string * string);
  id : string;
  name : string;
  misfire_grace_time : option Z;
  coalesce : bool;
  max_instances : Z
}.

(** [django.contrib.messages] levels. *)
Inductive level : Type := messages_INFO | messages_WARNING | messages_ERROR.

(** The messages of the action, by their template and its arguments. *)
Inductive text : Type :=
| task_not_found (item_id : string)
| max_run_time_exceeded (timeout : Z) (pending : list string)
| job_executed (job_id : string).

Record message : Type := mkMessage {
  msg_level : level;
  msg_text : text
}.

(** What the submission loop builds: the messages sent to the user, the
    calls made on the ephemeral scheduler and [self._jobs_scheduled]. *)
Record state : Type := mkState {
  messages : list message;
  scheduler : list add_job_call;
  _jobs_scheduled : set string
}.

Definition initial : state := mkState [] [] (empty_set string).

(** The call the loop makes for a job it found: the job's own settings,
    with [trigger=None]. *)
Definition call_of (django_job : Job.t) : add_job_call :=
  mkCall (Job.func_ref django_job) None (Job.args django_job)
         (Job.kwargs django_job) (Job.id django_job) (Job.name django_job)
         (Job.misfire_grace_time django_job) (Job.coalesce django_job)
         (Job.max_instances django_job).

Section RunNow.

(** [self._django_jobstore.lookup_job]: the job store is not among the
    modelled files, so the lookup is a parameter; [None] is Python's
    [None]. *)
Variable lookup_job : string -> option Job.t.

(** The body of [for item in queryset]. *)
Definition submit (s : state) (item : DjangoJob.t) : state :=
  match lookup_job (DjangoJob.id item) with
  | None =>
      mkState
        (messages s ++ [mkMessage messages_WARNING (task_not_found (DjangoJob.id item))])
        (scheduler s)
        (_jobs_scheduled s)
  | Some django_job =>
      mkState
        (messages s)
        (scheduler s ++ [call_of django_job])
        (set_add string_dec (Job.id django_job) (_jobs_scheduled s))
  end.

(** [run_selected_jobs], from the fresh sets to the end of the loop over the
    queryset.  The polling loop that follows waits on the clock and on the
    callbacks of the scheduler's threads and is not part of the model. *)
Definition run_selected_jobs (queryset : list DjangoJob.t) : state :=
  fold_left submit queryset initial.

(** The warning the loop sends for an item without a job. *)
Definition not_found_warning (item : DjangoJob.t) : message :=
  mkMessage messages_WARNING (task_not_found (DjangoJob.id item)).

(** The warnings of a queryset: one per item without a job, in order. *)
Definition warnings_of (queryset : list DjangoJob.t) : list message :=
  flat_map (fun item => match lookup_job (DjangoJob.id item) with
                        | None => [not_found_warning item]
                        | Some _ => []
                        end) queryset.

(** The calls of a queryset: one per item with a job, in order. *)
Definition calls_of (queryset : list DjangoJob.t) : list add_job_call :=
  flat_map (fun item => match lookup_job (DjangoJob.id item) with
                        | None => []
                        | Some django_job => [call_of django_job]
                        end) queryset.

End RunNow.

(** Python's [a <= b] and [a == b] on sets. *)
Definition set_subsetb (a b : set string) : bool :=
  forallb (fun x => set_mem string_dec x b) a.

Definition set_eqb (a b : set string) : bool :=
  set_subsetb a b && set_subsetb b a.

(** How the action ends the ephemeral scheduler: [shutdown()] or
    [shutdown(wait=False)]. *)
Inductive shutdown : Type := shutdown_wait | shutdown_no_wait.

(** One round of the polling loop, as the action reads its surroundings:
    [self._jobs_executed] (which the listener's thread fills) when the loop
    condition is tested, the clock read inside the loop, and
    [self._jobs_executed] when it is read again for the report.  The order
    in which Python iterates over a set is not fixed; here it is the order
    of the list. *)
Record poll : Type := mkPoll {
  executed_at_test : set string;
  clock : datetime;
  executed_at_report : set string
}.

(** The [while self._jobs_scheduled != self._jobs_executed] loop and what
    follows it, over the rounds [polls]: [None] when the rounds run out
    while the action is still waiting. *)
Fixpoint wait_for_jobs (timeout : Z) (start_time : datetime) (s : state)
    (polls : list poll) : option (state * shutdown) :=
  match polls with
  | [] => None
  | p :: rest =>
      if set_eqb (_jobs_scheduled s) (executed_at_test p) then
        Some (mkState
                (messages s ++
                 map (fun job_id => mkMessage messages_INFO (job_executed job_id))
                     (executed_at_report p))
                (scheduler s) (_jobs_scheduled s),
              shutdown_wait)
      else if clock p >? start_time + timedelta_seconds timeout then
        Some (mkState
                (messages s ++
                 [mkMessage messages_ERROR
                    (max_run_time_exceeded timeout
                       (set_diff string_dec (_jobs_scheduled s)
                                 (executed_at_report p)))])
                (scheduler s) (_jobs_scheduled s),
              shutdown_no_wait)
      else wait_for_jobs timeout start_time s rest
  end.

Section RunNowWait.

Variable lookup_job : string -> option Job.t.

(** [run_selected_jobs] with its polling loop: [timeout] is
    [self._job_execution_timeout] and [start_time] the clock read before the
    loop over the queryset. *)
Definition run_selected_jobs_and_wait (timeout : Z) (start_time : datetime)
    (queryset : list DjangoJob.t) (polls : list poll)
  : option (state * shutdown) :=
  wait_for_jobs timeout start_time (run_selected_jobs lookup_job queryset)
                polls.

End RunNowWait.

(** [DjangoJobExecutionAdmin.status_color_mapping] *)
Definition status_color_mapping : list (string * string) :=
  [ (SUCCESS, "green");
    (SENT, "blue");
    (MAX_INSTANCES, "orange");
    (MISSED, "orange");
    (ERROR, "red") ].

End Admin.

(** ** The job-registration decorator ([run.py], [reg_job]) *)

Module Run.

(** What the decorator reads of the function it decorates. *)
Record function : Type := mkFunction {
  __module__ : string;
  __name__ : string
}.

Section RegJob.

(** The Python objects passed as arguments, left abstract, with the [str]
    objects among them. *)
Variable value : Type.
Variable str : string -> value.

(** A [dict] with string keys, in insertion order. *)
Definition dict : Type := list (string * value).

Fixpoint get (d : dict) (k : string) : option value :=
  match d with
  | [] => None
  | (k', v) :: rest => if String.eqb k' k then Some v else get rest k
  end.

(** [d.setdefault(k, v)], as the dictionary it leaves. *)
Definition setdefault (d : dict) (k : string) (v : value) : dict :=
  match get d k with
  | Some _ => d
  | None => d ++ [(k, v)]
  end.

(** The arguments of one call of [scheduler.add_job]: the function, the
    positional arguments and the keyword arguments. *)
Record add_job_call : Type := mkCall {
  call_func : function;
  call_args : list value;
  call_kwargs : dict
}.

(** The scheduler of [run.py] and its [add_job].  They belong to
    APScheduler and to the job store, which are not among the modelled
    files, so they are parameters: [add_job s c] is the scheduler after the
    call [c], or [None] when the call raises (as it does with
    [ConflictingIdError] for an id the job store already holds). *)
Variable scheduler : Type.
Variable add_job : scheduler -> add_job_call -> option scheduler.

(** [wrapper_register_job(func)], the decorator that a call of [reg_job]
    returns.  The decorator keeps the dictionary [kwargs] of that one call
    of [reg_job] and updates it in place, so the dictionary is threaded
    through its applications.  An application yields the dictionary as it
    leaves it, the call it makes on the scheduler, and its outcome: the
    scheduler after the call with the function returned, or [None] when
    [add_job] raises and the decorator with it. *)
Definition wrapper_register_job (args : list value) (kwargs : dict)
    (s : scheduler) (func : function)
  : dict * add_job_call * option (scheduler * function) :=
  let kwargs :=
    setdefault kwargs "id" (str (__module__ func ++ "." ++ __name__ func)) in
  let call := mkCall func args kwargs in
  (kwargs, call,
   match add_job s call with
   | Some s' => Some (s', func)
   | None => None
   end).

(** The rule of a job store that is asked to add, without
    [replace_existing], a job whose id it holds: once [add_job] has
    accepted a call, a call with the same [id] on the resulting scheduler
    raises. *)
Definition refuses_id_just_added : Prop :=
  forall (s s' : scheduler) (c c' : add_job_call),
    add_job s c = Some s' ->
    get (call_kwargs c') "id" = get (call_kwargs c) "id" ->
    add_job s' c' = None.

End RegJob.

Arguments get {value} _ _.
Arguments setdefault {value} _ _ _.
Arguments mkCall {value} _ _ _.
Arguments call_func {value} _.
Arguments call_args {value} _.
Arguments call_kwargs {value} _.
Arguments wrapper_register_job {value} _ {scheduler} _ _ _ _ _.
Arguments refuses_id_just_added {value scheduler} _.

End Run.

(** ** Sample data *)

(** A conversion that keeps the instant, as [get_django_internal_datetime]
    does for a datetime that is already in the stored representation. *)
Definition keep (t : datetime) : datetime := t.

(** A conversion that keeps the number: a column of unbounded precision. *)
Definition exact (q : Q) : Q := q.

(** Two rows of the execution table, as the table holds them. *)
Definition row_j1 : DjangoJobExecution :=
  mkExecution 1 "j1" SUCCESS 0 (Some (500 # 100)) (Some (500 # 100))
              (Some "boom") None.

Definition row_j2 : DjangoJobExecution :=
  mkExecution 2 "j2" SENT 3000000 None None None None.

Definition sample_db : database :=
  mkDatabase ["j1"; "j2"; "j3"] [row_j1; row_j2] 3.

(** A sequence of deliveries: clock readings with their events. *)
Definition sample_deliveries : list (datetime * event) :=
  [ (1000000, mkEvent "j1" 0 SENT None None);
    (2000000, mkEvent "j1" 0 SUCCESS None None);
    (2500000, mkEvent "j1" 0 SENT None None);
    (4000000, mkEvent "j2" 3000000 ERROR (Some "boom") (Some "trace"));
    (4000001, mkEvent "j2" 3000000 ERROR (Some "boom") (Some "trace")) ].

(** An Executed event for the firing of job [j1] scheduled at time 0. *)
Definition executed_j1 : event := mkEvent "j1" 0 SUCCESS None None.

(** A firing scheduled five seconds after the clock reading at which its
    Submitted event is recorded. *)
Definition early_event : event := mkEvent "j1" 10000000 SENT None None.

Definition early_row : DjangoJobExecution :=
  mkExecution 1 "j1" SENT 10000000 None None None None.

Definition early_db : database := mkDatabase ["j1"] [early_row] 2.

(** Scenario C of the specification: [j1] is in the job store, [j2] is not. *)
Definition job_j1 : Admin.Job.t :=
  Admin.Job.mk "tasks:task_report" ["daily"] [("retries", "3")] "j1"
               "task_report" (Some 30) true 1.

Definition store_with_j1 (i : string) : option Admin.Job.t :=
  if String.eqb i "j1" then Some job_j1 else None.

Definition queryset_j2_j1 : list DjangoJob.t :=
  [DjangoJob.mk "j2" None ""; DjangoJob.mk "j1" (Some 0) ""].

(** A registry of two tasks whose callables are numbered. *)
Definition sample_tasks : list (Descovertasks.Task nat) :=
  [ Descovertasks.mkTask "task_report" 1%nat "daily report";
    Descovertasks.mkTask "task_purge" 2%nat "task_purge" ].

(** Rounds of the polling loop for the jobs [j1] and [j2]: nothing executed
    after one second, [j1] executed after sixteen. *)
Definition state_j1_j2 : Admin.state :=
  Admin.mkState [] [Admin.call_of job_j1] ["j1"; "j2"].

Definition polls_timeout : list Admin.poll :=
  [ Admin.mkPoll [] 1000000 [];
    Admin.mkPoll ["j1"] 15000000 ["j1"];
    Admin.mkPoll ["j1"] 16000000 ["j1"] ].

Definition polls_complete : list Admin.poll :=
  [ Admin.mkPoll ["j1"] 1000000 ["j1"];
    Admin.mkPoll ["j2"; "j1"] 2000000 ["j2"; "j1"] ].

(** Two apps with a tasks module, between them one without: the members of
    the modules are listed by name, as [inspect.getmembers] does. *)
Definition sample_apps : list (Descovertasks.app nat) :=
  [ Descovertasks.mkApp "reports"
      (Descovertasks.imported
         [ Descovertasks.mkMember "TASK_LIMIT" None None;
           Descovertasks.mkMember "helper" (Some 7%nat) (Some "not a task");
           Descovertasks.mkMember "task_report" (Some 1%nat)
                                  (Some "daily report") ]);
    Descovertasks.mkApp "accounts" Descovertasks.module_not_found;
    Descovertasks.mkApp "cleanup"
      (Descovertasks.imported
         [ Descovertasks.mkMember "task_purge" (Some 2%nat) None;
           Descovertasks.mkMember "task_report" (Some 3%nat) (Some "") ]) ].

(** A job store that keeps the ids of its jobs and refuses an id it holds,
    as [add_job] does with [ConflictingIdError]; the keyword arguments are
    strings. *)
Definition id_store_add_job (s : list string) (c : Run.add_job_call string)
  : option (list string) :=
  match Run.get (Run.call_kwargs c) "id" with
  | Some i => if existsb (String.eqb i) s then None else Some (s ++ [i])
  | None => None
  end.

(** * Properties *)
(** ** Lists *)

Lemma filter_nil_iff {A : Type} (f : A -> bool) (l : list A) :
  filter f l = [] <-> existsb f l = false.
Proof.
  induction l as [|a l IH]; simpl.
  - tauto.
  - destruct (f a); simpl.
    + split; discriminate.
    + exact IH.
Qed.

Lemma existsb_false_all {A : Type} (f : A -> bool) (l : list A) :
  existsb f l = false <-> (forall x, In x l -> f x = false).
Proof.
  induction l as [|a l IH]; simpl.
  - split; [intros _ x [] | reflexivity].
  - rewrite orb_false_iff, IH. split.
    + intros [Ha Hl] x [<- | Hx]; auto.
    + intros H. split; [apply H; now left | intros x Hx; apply H; now right].
Qed.

Lemma NoDup_snoc {A : Type} (l : list A) (a : A) :
  NoDup l -> ~ In a l -> NoDup (l ++ [a]).
Proof.
  induction l as [|x l IH]; simpl; intros Hnd Hin.
  - constructor; [intros [] | constructor].
  - inversion Hnd as [|? ? Hx Hl]; subst. constructor.
    + rewrite in_app_iff. simpl. intros [H | [H | []]]; [tauto | subst; tauto].
    + apply IH; tauto.
Qed.

Lemma NoDup_map_injective {A B : Type} (f : A -> B) (l : list A) (x y : A) :
  NoDup (map f l) -> In x l -> In y l -> f x = f y -> x = y.
Proof.
  induction l as [|a l IH]; simpl; intros Hnd Hx Hy Hxy; [contradiction|].
  inversion Hnd as [|? ? Ha Hl]; subst.
  destruct Hx as [<- | Hx], Hy as [<- | Hy]; auto.
  - exfalso. apply Ha. rewrite Hxy. now apply in_map.
  - exfalso. apply Ha. rewrite <- Hxy. now apply in_map.
Qed.

(** ** Lookup by pair *)

Lemma key_matches_true (j : string) (t : datetime) (r : DjangoJobExecution) :
  key_matches j t r = true <-> job_id r = j /\ run_time r = t.
Proof.
  unfold key_matches. rewrite andb_true_iff, String.eqb_eq, Z.eqb_eq. tauto.
Qed.

Lemma key_matches_key (j : string) (t : datetime) (r : DjangoJobExecution) :
  key_matches j t r = true <-> key r = (j, t).
Proof.
  rewrite key_matches_true. unfold key. split.
  - intros [-> ->]. reflexivity.
  - intros H. now inversion H.
Qed.

Lemma filter_unique_row (l : list DjangoJobExecution) (r : DjangoJobExecution) :
  NoDup (map key l) -> In r l ->
  filter (key_matches (job_id r) (run_time r)) l = [r].
Proof.
  induction l as [|x l IH]; simpl; intros Hnd Hin; [contradiction|].
  inversion Hnd as [|? ? Hx Hl]; subst.
  destruct Hin as [-> | Hin].
  - replace (key_matches (job_id r) (run_time r) r) with true
      by (symmetry; now apply key_matches_true).
    f_equal. apply filter_nil_iff, existsb_false_all. intros y Hy.
    destruct (key_matches (job_id r) (run_time r) y) eqn:E; [|reflexivity].
    exfalso. apply Hx. apply key_matches_key in E. fold (key r) in E.
    rewrite <- E. now apply in_map.
  - destruct (key_matches (job_id r) (run_time r) x) eqn:E.
    + exfalso. apply Hx. apply key_matches_key in E. fold (key r) in E.
      rewrite E. now apply in_map.
    + now apply IH.
Qed.

Lemma objects_get_found (db : database) (r : DjangoJobExecution) :
  unique_job_executions db -> In r (rows db) ->
  objects_get db (job_id r) (run_time r) = Ok r.
Proof.
  intros Hu Hin. unfold objects_get.
  now rewrite (filter_unique_row _ _ Hu Hin).
Qed.

Lemma objects_get_absent (db : database) (j : string) (t : datetime) :
  objects_get db j t = Raise DoesNotExist <->
  existsb (key_matches j t) (rows db) = false.
Proof.
  unfold objects_get. rewrite <- filter_nil_iff.
  destruct (filter (key_matches j t) (rows db)) as [|a [|b l]];
    split; intros H; try reflexivity; discriminate.
Qed.

Lemma objects_get_Ok (db : database) (j : string) (t : datetime)
    (r : DjangoJobExecution) :
  objects_get db j t = Ok r ->
  In r (rows db) /\ job_id r = j /\ run_time r = t.
Proof.
  unfold objects_get. intros H.
  destruct (filter (key_matches j t) (rows db)) as [|a [|b l]] eqn:E;
    try discriminate.
  injection H as ->.
  assert (Hin : In r (filter (key_matches j t) (rows db)))
    by (rewrite E; now left).
  apply filter_In in Hin. destruct Hin as [Hin Hm].
  apply key_matches_true in Hm. tauto.
Qed.

(** ** Saving a row that is in the table *)

Lemma update_row_map {B : Type} (f : DjangoJobExecution -> B)
    (r' : DjangoJobExecution) (l : list DjangoJobExecution) :
  (forall x, In x l -> id x = id r' -> f x = f r') ->
  map f (update_row r' l) = map f l.
Proof.
  unfold update_row. induction l as [|a l IH]; simpl; intros H; [reflexivity|].
  rewrite IH by (intros x Hx; apply H; now right). f_equal.
  destruct (id a =? id r') eqn:E; [|reflexivity].
  symmetry. apply H; [now left | now apply Z.eqb_eq].
Qed.

Lemma update_row_In (r r' : DjangoJobExecution) (l : list DjangoJobExecution) :
  In r l -> id r' = id r -> In r' (update_row r' l).
Proof.
  intros Hin Hid. unfold update_row. apply in_map_iff. exists r.
  rewrite Hid, Z.eqb_refl. auto.
Qed.

Lemma update_row_other (r' x : DjangoJobExecution) (l : list DjangoJobExecution) :
  In x l -> id x <> id r' -> In x (update_row r' l).
Proof.
  intros Hin Hid. unfold update_row. apply in_map_iff. exists x.
  apply Z.eqb_neq in Hid. rewrite Hid. auto.
Qed.

Lemma update_row_fresh (r' : DjangoJobExecution) (l : list DjangoJobExecution) :
  (forall x, In x l -> id x <> id r') -> update_row r' l = l.
Proof.
  unfold update_row. induction l as [|a l IH]; simpl; intros H; [reflexivity|].
  rewrite IH by (intros x Hx; apply H; now right).
  assert (Ha : id a <> id r') by (apply H; now left).
  apply Z.eqb_neq in Ha. now rewrite Ha.
Qed.


(** ** Instances and stored rows *)

Section Stored.

Variable dec : Q -> Q.

Lemma as_stored_id (r : DjangoJobExecution) : id (as_stored dec r) = id r.
Proof. reflexivity. Qed.

Lemma as_stored_key (r : DjangoJobExecution) : key (as_stored dec r) = key r.
Proof. reflexivity. Qed.

(** ** Saving an instance whose row is in the table *)

Section SaveExisting.

Variables (db : database) (r r' : DjangoJobExecution).
Hypothesis Hwf : well_formed db.
Hypothesis Hin : In r (rows db).
Hypothesis Hid : id r' = id r.
Hypothesis Hkey : key r' = key r.

Lemma same_id_same_row (x : DjangoJobExecution) :
  In x (rows db) -> id x = id r' -> x = r.
Proof.
  intros Hx Hxid. destruct Hwf as [[Hnd _] _].
  apply (NoDup_map_injective id (rows db)); auto. congruence.
Qed.

Lemma save_existing :
  save dec r' db =
  Ok (mkDatabase (jobs db) (update_row (as_stored dec r') (rows db))
                 (next_id db)).
Proof.
  unfold save.
  assert (E1 : existsb (fun x => key_matches (job_id r') (run_time r') x
                                 && negb (id x =? id r')) (rows db) = false).
  { apply existsb_false_all. intros x Hx.
    destruct (key_matches (job_id r') (run_time r') x) eqn:E; [|reflexivity].
    apply key_matches_key in E. fold (key r') in E.
    assert (x = r).
    { destruct Hwf as [_ Hu].
      apply (NoDup_map_injective key (rows db)); auto. congruence. }
    subst x. rewrite Hid, Z.eqb_refl. reflexivity. }
  assert (E2 : existsb (fun x => id x =? id r') (rows db) = true).
  { apply existsb_exists. exists r. split; [exact Hin|].
    rewrite Hid. apply Z.eqb_refl. }
  now rewrite E1, E2.
Qed.

Lemma update_row_keys :
  map key (update_row (as_stored dec r') (rows db)) = map key (rows db).
Proof.
  apply update_row_map. intros x Hx Hxid. rewrite as_stored_id in Hxid.
  rewrite (same_id_same_row x Hx Hxid), as_stored_key. now symmetry.
Qed.

Lemma update_row_ids :
  map id (update_row (as_stored dec r') (rows db)) = map id (rows db).
Proof. apply update_row_map. auto. Qed.

Lemma save_existing_well_formed :
  well_formed
    (mkDatabase (jobs db) (update_row (as_stored dec r') (rows db))
                (next_id db)).
Proof.
  destruct Hwf as [[Hnd Hlt] Hu].
  unfold well_formed, primary_keys_ok, unique_job_executions. simpl.
  rewrite update_row_keys, update_row_ids. auto.
Qed.

Lemma save_existing_get :
  objects_get
    (mkDatabase (jobs db) (update_row (as_stored dec r') (rows db))
                (next_id db))
    (job_id r') (run_time r') = Ok (as_stored dec r').
Proof.
  apply (objects_get_found
           (mkDatabase (jobs db) (update_row (as_stored dec r') (rows db))
                       (next_id db))
           (as_stored dec r')).
  - apply save_existing_well_formed.
  - simpl. apply update_row_In with (r := r); [exact Hin|].
    now rewrite as_stored_id.
Qed.

End SaveExisting.

(** ** Creating a row for a free pair *)

Section CreateFresh.

Variables (db : database) (j : string) (t : datetime) (st : string)
          (dur fin : option Q) (exc tb : option string).
Hypothesis Hfree : existsb (key_matches j t) (rows db) = false.

Let r : DjangoJobExecution := mkExecution (next_id db) j st t dur fin exc tb.

Lemma create_fresh :
  job_exists db j = true ->
  objects_create dec db j t st dur fin exc tb =
  Ok (mkDatabase (jobs db) (rows db ++ [as_stored dec r]) (next_id db + 1), r).
Proof. intros Hjob. unfold objects_create. now rewrite Hjob, Hfree. Qed.

Lemma create_without_job :
  job_exists db j = false ->
  objects_create dec db j t st dur fin exc tb = Raise IntegrityError.
Proof. intros Hjob. unfold objects_create. now rewrite Hjob. Qed.

Lemma create_fresh_well_formed :
  well_formed db ->
  well_formed
    (mkDatabase (jobs db) (rows db ++ [as_stored dec r]) (next_id db + 1)).
Proof.
  intros [[Hnd Hlt] Hu].
  unfold well_formed, primary_keys_ok, unique_job_executions. simpl.
  rewrite !map_app. simpl. repeat split.
  - apply NoDup_snoc; [exact Hnd|]. intros Hi.
    rewrite Forall_forall in Hlt. apply Hlt in Hi. lia.
  - apply Forall_app. split.
    + eapply Forall_impl; [|exact Hlt]. simpl. intros; lia.
    + constructor; [lia | constructor].
  - apply NoDup_snoc; [exact Hu|]. intros Hi.
    apply in_map_iff in Hi. destruct Hi as [x [Hk Hx]].
    assert (Hm : key_matches j t x = true)
      by (apply key_matches_key; exact Hk).
    rewrite existsb_false_all in Hfree. rewrite (Hfree x Hx) in Hm.
    discriminate.
Qed.

End CreateFresh.

(** ** The branches of the reconciler *)

Section Branches.

Variable norm : datetime -> datetime.

Variables (db : database) (now : datetime) (j : string) (t : datetime)
          (st : string) (exc tb : option string).

Lemma reconcile_submitted_existing (r : DjangoJobExecution) :
  unique_job_executions db -> In r (rows db) ->
  job_id r = j -> run_time r = norm t -> st = SENT ->
  atomic_update_or_create dec norm db now j t st exc tb = Ok (db, r).
Proof.
  intros Hu Hin Hj Ht ->.
  assert (Hget : objects_get db j (norm t) = Ok r)
    by (rewrite <- Hj, <- Ht; now apply objects_get_found).
  unfold atomic_update_or_create. rewrite Hget.
  now rewrite String.eqb_refl.
Qed.

Lemma reconcile_terminal_existing (r : DjangoJobExecution) :
  well_formed db -> In r (rows db) ->
  job_id r = j -> run_time r = norm t -> terminal st ->
  let r' := overwritten st (total_seconds (norm now - norm t))
                        (timestamp (norm now)) exc tb r in
  atomic_update_or_create dec norm db now j t st exc tb =
  Ok (mkDatabase (jobs db) (update_row (as_stored dec r') (rows db))
                 (next_id db), r').
Proof.
  intros Hwf Hin Hj Ht Hst r'.
  assert (Hget : objects_get db j (norm t) = Ok r)
    by (rewrite <- Hj, <- Ht; apply objects_get_found; [apply Hwf | exact Hin]).
  unfold atomic_update_or_create. rewrite Hget.
  apply String.eqb_neq in Hst. rewrite Hst.
  match goal with |- bind (save dec ?x db) _ = _ => replace x with r' end.
  - rewrite (save_existing db r r' Hwf Hin eq_refl eq_refl). reflexivity.
  - unfold r', overwritten.
    destruct (truthy exc), (truthy tb); reflexivity.
Qed.

Lemma reconcile_absent :
  existsb (key_matches j (norm t)) (rows db) = false ->
  job_exists db j = true ->
  let r' := mkExecution (next_id db) j st (norm t)
              (if String.eqb st SENT then None
               else Some (total_seconds (norm now - norm t)))
              (if String.eqb st SENT then None
               else Some (timestamp (norm now)))
              exc tb in
  atomic_update_or_create dec norm db now j t st exc tb =
  Ok (mkDatabase (jobs db) (rows db ++ [as_stored dec r']) (next_id db + 1),
      r').
Proof.
  intros Hfree Hjob r'. unfold atomic_update_or_create.
  rewrite (proj2 (objects_get_absent db j (norm t)) Hfree).
  destruct (String.eqb st SENT); apply create_fresh; assumption.
Qed.

Lemma reconcile_without_job :
  existsb (key_matches j (norm t)) (rows db) = false ->
  job_exists db j = false ->
  atomic_update_or_create dec norm db now j t st exc tb = Raise IntegrityError.
Proof.
  intros Hfree Hjob. unfold atomic_update_or_create.
  rewrite (proj2 (objects_get_absent db j (norm t)) Hfree).
  destruct (String.eqb st SENT); now apply create_without_job.
Qed.

(** The four ways a call on a well-formed table ends. *)
Lemma reconcile_cases :
  well_formed db ->
  (exists r, In r (rows db) /\ job_id r = j /\ run_time r = norm t
             /\ st = SENT
             /\ atomic_update_or_create dec norm db now j t st exc tb =
                Ok (db, r))
  \/ (exists r, In r (rows db) /\ job_id r = j /\ run_time r = norm t
                /\ st <> SENT
                /\ atomic_update_or_create dec norm db now j t st exc tb =
                   Ok (mkDatabase (jobs db)
                         (update_row
                            (as_stored dec
                               (overwritten st
                                  (total_seconds (norm now - norm t))
                                  (timestamp (norm now)) exc tb r))
                            (rows db))
                         (next_id db),
                       overwritten st (total_seconds (norm now - norm t))
                                   (timestamp (norm now)) exc tb r))
  \/ (existsb (key_matches j (norm t)) (rows db) = false
      /\ job_exists db j = true
      /\ atomic_update_or_create dec norm db now j t st exc tb =
         Ok (mkDatabase (jobs db)
               (rows db ++
                [as_stored dec
                   (mkExecution (next_id db) j st (norm t)
                      (if String.eqb st SENT then None
                       else Some (total_seconds (norm now - norm t)))
                      (if String.eqb st SENT then None
                       else Some (timestamp (norm now)))
                      exc tb)])
               (next_id db + 1),
             mkExecution (next_id db) j st (norm t)
               (if String.eqb st SENT then None
                else Some (total_seconds (norm now - norm t)))
               (if String.eqb st SENT then None
                else Some (timestamp (norm now)))
               exc tb))
  \/ (existsb (key_matches j (norm t)) (rows db) = false
      /\ job_exists db j = false
      /\ atomic_update_or_create dec norm db now j t st exc tb =
         Raise IntegrityError).
Proof.
  intros Hwf.
  destruct (existsb (key_matches j (norm t)) (rows db)) eqn:E.
  - apply existsb_exists in E. destruct E as [r [Hin Hm]].
    apply key_matches_true in Hm. destruct Hm as [Hj Ht].
    destruct (String.eqb st SENT) eqn:Es.
    + apply String.eqb_eq in Es. left. exists r. repeat split; auto.
      apply reconcile_submitted_existing; auto. apply Hwf.
    + apply String.eqb_neq in Es. right. left. exists r. repeat split; auto.
      apply (reconcile_terminal_existing r); auto.
  - destruct (job_exists db j) eqn:Ej.
    + right. right. left. split; [reflexivity|]. split; [reflexivity|].
      now apply reconcile_absent.
    + right. right. right. split; [reflexivity|]. split; [reflexivity|].
      now apply reconcile_without_job.
Qed.

End Branches.

(** A delivery keeps a well-formed table well-formed. *)
Lemma deliver_well_formed (norm : datetime -> datetime) (db : database)
    (d : datetime * event) :
  well_formed db -> well_formed (deliver dec norm db d).
Proof.
  intros Hwf. destruct d as [now [j t st exc tb]].
  unfold deliver, recordEvent. simpl.
  destruct (reconcile_cases norm db now j t st exc tb Hwf)
    as [[r [Hin [Hj [Ht [Hs Hc]]]]]
       | [[r [Hin [Hj [Ht [Hs Hc]]]]] | [[E [Ej Hc]] | [E [Ej Hc]]]]];
    rewrite Hc; simpl; auto.
  - apply save_existing_well_formed with (r := r); auto.
  - apply create_fresh_well_formed; auto.
Qed.

Lemma deliveries_well_formed (norm : datetime -> datetime)
    (ds : list (datetime * event)) (db : database) :
  well_formed db -> well_formed (fold_left (deliver dec norm) ds db).
Proof.
  revert db. induction ds as [|d ds IH]; intros db Hwf; simpl; [exact Hwf|].
  apply IH. now apply deliver_well_formed.
Qed.

End Stored.

Lemma empty_database_well_formed (js : list string) :
  well_formed (empty_database js).
Proof.
  unfold well_formed, primary_keys_ok, unique_job_executions. simpl.
  repeat split; constructor.
Qed.

Lemma sample_db_well_formed : well_formed sample_db.
Proof.
  unfold well_formed, primary_keys_ok, unique_job_executions. simpl.
  repeat split.
  - repeat constructor; simpl; intuition discriminate.
  - repeat constructor.
  - repeat constructor; simpl; intuition discriminate.
Defined.

Lemma SUCCESS_terminal : terminal SUCCESS.
Proof. unfold terminal. discriminate. Defined.

Lemma job_exists_In (db : database) (j : string) :
  job_exists db j = true <-> In j (jobs db).
Proof.
  unfold job_exists. rewrite existsb_exists. split.
  - intros [x [Hx He]]. apply String.eqb_eq in He. now subst x.
  - intros H. exists j. split; [exact H | apply String.eqb_refl].
Qed.

Lemma job_exists_not_In (db : database) (j : string) :
  job_exists db j = false <-> ~ In j (jobs db).
Proof.
  rewrite <- job_exists_In. destruct (job_exists db j).
  - split; [discriminate | intros H; now contradiction H].
  - split; [discriminate | reflexivity].
Qed.

(** ** The reconciler *)

(** C1: when a record exists for the pair (job id, normalised run time), a
    Submitted event leaves the table as it is, every field of the record
    included, and the call returns that record. *)
Theorem submitted_event_keeps_existing_record
    (dec : Q -> Q) (norm : datetime -> datetime) (db : database)
    (now : datetime) (j : string) (t : datetime) (exc tb : option string)
    (r : DjangoJobExecution) :
  unique_job_executions db ->
  In r (rows db) -> job_id r = j -> run_time r = norm t ->
  atomic_update_or_create dec norm db now j t SENT exc tb = Ok (db, r).
Proof.
  intros Hu Hin Hj Ht.
  now apply reconcile_submitted_existing.
Qed.

Lemma submitted_event_keeps_existing_record_witness :
  atomic_update_or_create two_decimal_places keep sample_db 9000000 "j1" 0
                          SENT (Some "late") (Some "trace")
  = Ok (sample_db, row_j1).
Proof.
  apply (submitted_event_keeps_existing_record two_decimal_places keep
           sample_db 9000000 "j1" 0 (Some "late") (Some "trace") row_j1).
  - apply sample_db_well_formed.
  - simpl. now left.
  - reflexivity.
  - reflexivity.
Defined.

(** C2: from a well-formed table, after each delivery of any sequence of
    events the table holds at most one row per (job id, run time) pair. *)
Theorem uniqueness_preserved_by_every_delivery
    (dec : Q -> Q) (norm : datetime -> datetime) (db : database)
    (ds : list (datetime * event)) :
  well_formed db ->
  Forall unique_job_executions (history dec norm db ds).
Proof.
  revert db. induction ds as [|d ds IH]; intros db Hwf; simpl.
  - constructor.
  - pose proof (deliver_well_formed dec norm db d Hwf) as Hwf'.
    constructor.
    + apply Hwf'.
    + apply IH. exact Hwf'.
Qed.

Lemma uniqueness_preserved_by_every_delivery_witness :
  Forall unique_job_executions
         (history two_decimal_places keep (empty_database ["j1"; "j2"])
                  sample_deliveries).
Proof.
  apply (uniqueness_preserved_by_every_delivery two_decimal_places keep
           (empty_database ["j1"; "j2"]) sample_deliveries).
  apply empty_database_well_formed.
Defined.

(** C3: when a record exists for the pair, a terminal event overwrites its
    status with the incoming one, sets [finished] to the normalised current
    time and [duration] to the normalised current time minus the normalised
    run time, in seconds.  The call returns the record with these values,
    and the row of the table for the pair then has the incoming status and
    these two numbers as its decimal columns keep them. *)
Theorem terminal_event_overwrites_existing_record
    (dec : Q -> Q) (norm : datetime -> datetime) (db : database)
    (now : datetime) (j : string) (t : datetime) (st : string)
    (exc tb : option string) (r : DjangoJobExecution) :
  well_formed db ->
  In r (rows db) -> job_id r = j -> run_time r = norm t ->
  terminal st ->
  exists db' r',
    atomic_update_or_create dec norm db now j t st exc tb = Ok (db', r')
    /\ status r' = st
    /\ finished r' = Some (timestamp (norm now))
    /\ duration r' = Some (total_seconds (norm now - norm t))
    /\ id r' = id r /\ job_id r' = j /\ run_time r' = norm t
    /\ exists row,
         objects_get db' j (norm t) = Ok row
         /\ id row = id r /\ job_id row = j /\ run_time row = norm t
         /\ status row = st
         /\ finished row = Some (dec (timestamp (norm now)))
         /\ duration row = Some (dec (total_seconds (norm now - norm t))).
Proof.
  intros Hwf Hin Hj Ht Hst.
  set (r' := overwritten st (total_seconds (norm now - norm t))
                         (timestamp (norm now)) exc tb r).
  exists (mkDatabase (jobs db) (update_row (as_stored dec r') (rows db))
                     (next_id db)), r'.
  split.
  - apply (reconcile_terminal_existing dec norm db now j t st exc tb r); auto.
  - do 6 (split; [simpl; auto|]).
    exists (as_stored dec r'). split.
    + pose proof (save_existing_get dec db r r' Hwf Hin eq_refl eq_refl) as Hg.
      unfold r' at 2 3 in Hg. simpl in Hg. now rewrite Hj, Ht in Hg.
    + simpl. repeat split; assumption.
Qed.

Lemma terminal_event_overwrites_existing_record_witness :
  exists db' r',
    atomic_update_or_create two_decimal_places keep sample_db 9005001 "j2"
                            3000000 MISSED None None = Ok (db', r')
    /\ status r' = MISSED
    /\ finished r' = Some (9005001 # 1000000)
    /\ duration r' = Some (6005001 # 1000000)
    /\ id r' = 2 /\ job_id r' = "j2" /\ run_time r' = 3000000
    /\ exists row,
         objects_get db' "j2" 3000000 = Ok row
         /\ id row = 2 /\ job_id row = "j2" /\ run_time row = 3000000
         /\ status row = MISSED
         /\ finished row = Some (901 # 100)
         /\ duration row = Some (601 # 100).
Proof.
  apply (terminal_event_overwrites_existing_record two_decimal_places keep
           sample_db 9005001 "j2" 3000000 MISSED None None row_j2).
  - apply sample_db_well_formed.
  - simpl. right. now left.
  - reflexivity.
  - reflexivity.
  - unfold terminal. discriminate.
Defined.

(** C10: when a record exists for the pair and a terminal event carries no
    exception and no traceback ([None] or the empty string), the record
    keeps its [exception] and [traceback]: in the record returned and in the
    row of the table, only [status], [duration] and [finished] are
    overwritten, and every other row stays as it is. *)
Theorem terminal_event_without_error_keeps_error_fields
    (dec : Q -> Q) (norm : datetime -> datetime) (db : database)
    (now : datetime) (j : string) (t : datetime) (st : string)
    (exc tb : option string) (r : DjangoJobExecution) :
  well_formed db ->
  In r (rows db) -> job_id r = j -> run_time r = norm t ->
  terminal st ->
  truthy exc = false -> truthy tb = false ->
  exists db' r',
    atomic_update_or_create dec norm db now j t st exc tb = Ok (db', r')
    /\ exception r' = exception r
    /\ traceback r' = traceback r
    /\ r' = mkExecution (id r) (job_id r) st (run_time r)
                        (Some (total_seconds (norm now - norm t)))
                        (Some (timestamp (norm now)))
                        (exception r) (traceback r)
    /\ objects_get db' j (norm t) =
       Ok (mkExecution (id r) (job_id r) st (run_time r)
                       (Some (dec (total_seconds (norm now - norm t))))
                       (Some (dec (timestamp (norm now))))
                       (exception r) (traceback r))
    /\ (forall x, In x (rows db) -> id x <> id r -> In x (rows db'))
    /\ List.length (rows db') = List.length (rows db)
    /\ jobs db' = jobs db.
Proof.
  intros Hwf Hin Hj Ht Hst Hexc Htb.
  set (r' := overwritten st (total_seconds (norm now - norm t))
                         (timestamp (norm now)) exc tb r).
  exists (mkDatabase (jobs db) (update_row (as_stored dec r') (rows db))
                     (next_id db)), r'.
  split.
  - apply (reconcile_terminal_existing dec norm db now j t st exc tb r); auto.
  - assert (Hr' : r' = mkExecution (id r) (job_id r) st (run_time r)
                         (Some (total_seconds (norm now - norm t)))
                         (Some (timestamp (norm now)))
                         (exception r) (traceback r)).
    { unfold r', overwritten. now rewrite Hexc, Htb. }
    split; [now rewrite Hr'|]. split; [now rewrite Hr'|].
    split; [exact Hr'|]. split; [|split; [|split]].
    + pose proof (save_existing_get dec db r r' Hwf Hin eq_refl eq_refl) as Hg.
      unfold r' at 2 3 in Hg. simpl in Hg. rewrite Hj, Ht in Hg.
      rewrite Hg. rewrite Hr'. reflexivity.
    + intros x Hx Hne. simpl. apply update_row_other; [exact Hx|].
      now rewrite as_stored_id.
    + simpl. unfold update_row. apply length_map.
    + reflexivity.
Qed.

Lemma terminal_event_without_error_keeps_error_fields_witness :
  exists db' r',
    atomic_update_or_create two_decimal_places keep sample_db 9005001 "j1" 0
                            MISSED None (Some "") = Ok (db', r')
    /\ exception r' = Some "boom"
    /\ traceback r' = None
    /\ r' = mkExecution 1 "j1" MISSED 0
                        (Some (9005001 # 1000000))
                        (Some (9005001 # 1000000))
                        (Some "boom") None
    /\ objects_get db' "j1" 0 =
       Ok (mkExecution 1 "j1" MISSED 0 (Some (901 # 100)) (Some (901 # 100))
                       (Some "boom") None)
    /\ (forall x, In x (rows sample_db) -> id x <> 1 -> In x (rows db'))
    /\ List.length (rows db') = 2%nat
    /\ jobs db' = ["j1"; "j2"; "j3"].
Proof.
  apply (terminal_event_without_error_keeps_error_fields two_decimal_places
           keep sample_db 9005001 "j1" 0 MISSED None (Some "") row_j1).
  - apply sample_db_well_formed.
  - simpl. now left.
  - reflexivity.
  - reflexivity.
  - unfold terminal. discriminate.
  - reflexivity.
  - reflexivity.
Defined.

(** C5, as stated, fails for an event whose job is not in the job table:
    there is no record for the pair, yet the call creates none, the
    insertion being refused by the foreign key of [DjangoJobExecution.job];
    the table stays as it was. *)
Lemma event_for_unknown_job_creates_nothing :
  (forall r, In r (rows sample_db) ->
             ~ (job_id r = "j9" /\ run_time r = keep 3000004))
  /\ atomic_update_or_create two_decimal_places keep sample_db 9005001 "j9"
                             3000004 SUCCESS None None
     = Raise IntegrityError
  /\ deliver two_decimal_places keep sample_db
             (9005001, mkEvent "j9" 3000004 SUCCESS None None)
     = sample_db.
Proof.
  split; [|split; reflexivity].
  simpl. intros r [<- | [<- | []]] [H _]; discriminate H.
Qed.

(** C5, amended: when no record exists for the pair and the job of the
    event is in the job table, the call creates one: it returns a record
    under the next primary key with the event's job id, normalised run time,
    status, exception and traceback, whose [duration] and [finished] are
    null for a Submitted event and are the normalised current time minus the
    normalised run time, and the normalised current time, otherwise; the row
    appended to the table is that record as the decimal columns keep it.
    When the job is not in the job table the call raises [IntegrityError]
    and creates nothing. *)
Theorem event_without_record_creates_one
    (dec : Q -> Q) (norm : datetime -> datetime) (db : database)
    (now : datetime) (j : string) (t : datetime) (st : string)
    (exc tb : option string) :
  (forall r, In r (rows db) -> ~ (job_id r = j /\ run_time r = norm t)) ->
  (In j (jobs db) ->
   exists r',
     atomic_update_or_create dec norm db now j t st exc tb =
       Ok (mkDatabase (jobs db) (rows db ++ [as_stored dec r'])
                      (next_id db + 1), r')
     /\ id r' = next_id db
     /\ job_id r' = j /\ run_time r' = norm t /\ status r' = st
     /\ exception r' = exc /\ traceback r' = tb
     /\ (st = SENT -> duration r' = None /\ finished r' = None)
     /\ (st <> SENT ->
         duration r' = Some (total_seconds (norm now - norm t))
         /\ finished r' = Some (timestamp (norm now))
         /\ duration (as_stored dec r') =
            Some (dec (total_seconds (norm now - norm t)))
         /\ finished (as_stored dec r') = Some (dec (timestamp (norm now)))))
  /\ (~ In j (jobs db) ->
      atomic_update_or_create dec norm db now j t st exc tb =
        Raise IntegrityError).
Proof.
  intros Hnone.
  assert (Hfree : existsb (key_matches j (norm t)) (rows db) = false).
  { apply existsb_false_all. intros x Hx.
    destruct (key_matches j (norm t) x) eqn:E; [|reflexivity].
    apply key_matches_true in E. exfalso. exact (Hnone x Hx E). }
  split.
  - intros Hjob. apply job_exists_In in Hjob.
    eexists. split.
    + apply reconcile_absent; assumption.
    + simpl. do 6 (split; [reflexivity|]). split.
      * intros Hs. apply String.eqb_eq in Hs. now rewrite Hs.
      * intros Hs. apply String.eqb_neq in Hs. now rewrite Hs.
  - intros Hjob. apply job_exists_not_In in Hjob.
    now apply reconcile_without_job.
Qed.

Lemma event_without_record_creates_one_witness :
  (exists r',
     atomic_update_or_create two_decimal_places keep sample_db 9005001 "j3"
                             3000004 SENT None None =
       Ok (mkDatabase ["j1"; "j2"; "j3"]
                      [row_j1; row_j2;
                       mkExecution 3 "j3" SENT 3000004 None None None None]
                      4, r')
     /\ r' = mkExecution 3 "j3" SENT 3000004 None None None None)
  /\
  (exists r',
     atomic_update_or_create two_decimal_places keep sample_db 9005001 "j3"
                             3000004 ERROR (Some "boom") (Some "trace") =
       Ok (mkDatabase ["j1"; "j2"; "j3"]
                      [row_j1; row_j2;
                       mkExecution 3 "j3" ERROR 3000004
                                   (Some (600 # 100)) (Some (901 # 100))
                                   (Some "boom") (Some "trace")]
                      4, r')
     /\ r' = mkExecution 3 "j3" ERROR 3000004
                         (Some (6004997 # 1000000))
                         (Some (9005001 # 1000000))
                         (Some "boom") (Some "trace")).
Proof.
  assert (Hnone : forall r, In r (rows sample_db) ->
                            ~ (job_id r = "j3" /\ run_time r = keep 3000004)).
  { simpl. intros r [<- | [<- | []]] [H _]; discriminate H. }
  assert (Hjob : In "j3" (jobs sample_db)) by (simpl; auto).
  split.
  - destruct (proj1 (event_without_record_creates_one two_decimal_places keep
                       sample_db 9005001 "j3" 3000004 SENT None None Hnone)
                    Hjob)
      as [r' [Hcall [Hid [Hj [Ht [Hst [He [Htb [Hsent _]]]]]]]]].
    destruct (Hsent eq_refl) as [Hd Hf].
    assert (Hr : r' = mkExecution 3 "j3" SENT 3000004 None None None None).
    { destruct r' as [i jj s rt d f e tbk]. cbn in Hid, Hj, Ht, Hst, He, Htb,
        Hd, Hf. subst. reflexivity. }
    exists r'. split; [|exact Hr].
    rewrite Hcall, Hr. reflexivity.
  - destruct (proj1 (event_without_record_creates_one two_decimal_places keep
                       sample_db 9005001 "j3" 3000004 ERROR (Some "boom")
                       (Some "trace") Hnone) Hjob)
      as [r' [Hcall [Hid [Hj [Ht [Hst [He [Htb [_ Hterm]]]]]]]]].
    assert (Hne : ERROR <> SENT) by discriminate.
    destruct (Hterm Hne) as [Hd [Hf _]].
    assert (Hr : r' = mkExecution 3 "j3" ERROR 3000004
                        (Some (6004997 # 1000000))
                        (Some (9005001 # 1000000))
                        (Some "boom") (Some "trace")).
    { destruct r' as [i jj s rt d f e tbk]. cbn in Hid, Hj, Ht, Hst, He, Htb,
        Hd, Hf. subst. reflexivity. }
    exists r'. split; [|exact Hr].
    rewrite Hcall, Hr. reflexivity.
Defined.

(** Scenarios A and B of the specification, for a job of the job table and
    no execution recorded: Submitted then Executed, and Executed then a
    late Submitted, both end with one Succeeded row whose duration is the
    time from the scheduled run to the Executed event. *)
Example scenario_A_submitted_then_executed :
  rows (deliver two_decimal_places keep
          (deliver two_decimal_places keep (empty_database ["j1"])
                   (1000000, mkEvent "j1" 0 SENT None None))
          (2000000, executed_j1)) =
  [mkExecution 1 "j1" SUCCESS 0 (Some (200 # 100)) (Some (200 # 100))
               None None].
Proof. reflexivity. Qed.

Example scenario_B_executed_then_submitted :
  rows (deliver two_decimal_places keep
          (deliver two_decimal_places keep (empty_database ["j1"])
                   (2000000, executed_j1))
          (2500000, mkEvent "j1" 0 SENT None None)) =
  [mkExecution 1 "j1" SUCCESS 0 (Some (200 # 100)) (Some (200 # 100))
               None None].
Proof. reflexivity. Qed.

(** ** Delivering a terminal event twice *)

Lemma overwritten_stored_twice (dec : Q -> Q) (st : string)
    (d1 f1 d2 f2 : Q) (exc tb : option string) (r : DjangoJobExecution) :
  overwritten st d2 f2 exc tb (as_stored dec (overwritten st d1 f1 exc tb r)) =
  overwritten st d2 f2 exc tb r.
Proof.
  unfold overwritten, as_stored. simpl.
  destruct (truthy exc), (truthy tb); reflexivity.
Qed.

Lemma update_row_twice (r1 r2 : DjangoJobExecution)
    (l : list DjangoJobExecution) :
  id r1 = id r2 -> update_row r2 (update_row r1 l) = update_row r2 l.
Proof.
  intros H. unfold update_row. rewrite map_map. apply map_ext. intros x.
  rewrite H. destruct (id x =? id r2) eqn:E.
  - now rewrite H, Z.eqb_refl.
  - now rewrite E.
Qed.

Lemma update_row_snoc (r1 r2 : DjangoJobExecution)
    (l : list DjangoJobExecution) :
  (forall x, In x l -> id x <> id r2) -> id r1 = id r2 ->
  update_row r2 (l ++ [r1]) = l ++ [r2].
Proof.
  intros Hfresh Hid.
  rewrite <- (update_row_fresh r2 l Hfresh) at 2.
  unfold update_row. rewrite map_app. simpl.
  now rewrite Hid, Z.eqb_refl.
Qed.

Lemma ids_below_sequence (db : database) (x : DjangoJobExecution) :
  well_formed db -> In x (rows db) -> id x < next_id db.
Proof.
  intros [[_ Hlt] _] Hx. rewrite Forall_forall in Hlt.
  apply Hlt. now apply in_map.
Qed.

(** Two deliveries of a terminal event, when the first one returns. *)
Lemma duplicate_terminal_event_returns
    (dec : Q -> Q) (norm : datetime -> datetime) (db : database)
    (now1 now2 : datetime) (j : string) (t : datetime) (st : string)
    (exc tb : option string) :
  well_formed db -> terminal st ->
  job_exists db j = true
  \/ existsb (key_matches j (norm t)) (rows db) = true ->
  exists db1 r1 db2 r2,
    atomic_update_or_create dec norm db now1 j t st exc tb = Ok (db1, r1)
    /\ atomic_update_or_create dec norm db1 now2 j t st exc tb = Ok (db2, r2)
    /\ atomic_update_or_create dec norm db now2 j t st exc tb = Ok (db2, r2)
    /\ id r2 = id r1 /\ job_id r2 = job_id r1 /\ run_time r2 = run_time r1
    /\ status r2 = status r1
    /\ exception r2 = exception r1 /\ traceback r2 = traceback r1
    /\ finished r2 = Some (timestamp (norm now2))
    /\ duration r2 = Some (total_seconds (norm now2 - norm t))
    /\ (norm now2 = norm now1 -> db2 = db1 /\ r2 = r1).
Proof.
  intros Hwf Hst Hsome.
  destruct (existsb (key_matches j (norm t)) (rows db)) eqn:E.
  - apply existsb_exists in E. destruct E as [r0 [Hin Hm]].
    apply key_matches_true in Hm. destruct Hm as [Hj Ht].
    pose (r1 := overwritten st (total_seconds (norm now1 - norm t))
                            (timestamp (norm now1)) exc tb r0).
    pose (r2 := overwritten st (total_seconds (norm now2 - norm t))
                            (timestamp (norm now2)) exc tb r0).
    pose (db1 := mkDatabase (jobs db) (update_row (as_stored dec r1) (rows db))
                            (next_id db)).
    assert (Hwf1 : well_formed db1)
      by (apply save_existing_well_formed with (r := r0); auto).
    assert (Hin1 : In (as_stored dec r1) (rows db1))
      by (simpl; now apply update_row_In with (r := r0)).
    exists db1, r1,
      (mkDatabase (jobs db) (update_row (as_stored dec r2) (rows db))
                  (next_id db)), r2.
    split; [|split; [|split]].
    + apply (reconcile_terminal_existing dec norm db now1 j t st exc tb r0);
        auto.
    + rewrite (reconcile_terminal_existing dec norm db1 now2 j t st exc tb
                 (as_stored dec r1)); auto.
      assert (Hr : overwritten st (total_seconds (norm now2 - norm t))
                               (timestamp (norm now2)) exc tb
                               (as_stored dec r1) = r2)
        by apply overwritten_stored_twice.
      rewrite Hr. unfold db1. simpl. now rewrite update_row_twice.
    + apply (reconcile_terminal_existing dec norm db now2 j t st exc tb r0);
        auto.
    + simpl. do 8 (split; [reflexivity|]).
      intros Hn. unfold db1, r2, r1. now rewrite Hn.
  - destruct Hsome as [Hjob | Habs]; [|discriminate Habs].
    assert (Hs : String.eqb st SENT = false) by now apply String.eqb_neq.
    pose (r1 := mkExecution (next_id db) j st (norm t)
                  (Some (total_seconds (norm now1 - norm t)))
                  (Some (timestamp (norm now1))) exc tb).
    pose (r2 := mkExecution (next_id db) j st (norm t)
                  (Some (total_seconds (norm now2 - norm t)))
                  (Some (timestamp (norm now2))) exc tb).
    pose (db1 := mkDatabase (jobs db) (rows db ++ [as_stored dec r1])
                            (next_id db + 1)).
    assert (Hwf1 : well_formed db1)
      by (apply create_fresh_well_formed; auto).
    assert (Hin1 : In (as_stored dec r1) (rows db1))
      by (simpl; apply in_or_app; right; now left).
    assert (Hc1 : atomic_update_or_create dec norm db now1 j t st exc tb =
                  Ok (db1, r1)).
    { rewrite (reconcile_absent dec norm db now1 j t st exc tb E Hjob).
      rewrite Hs. reflexivity. }
    assert (Hc2 : atomic_update_or_create dec norm db now2 j t st exc tb =
                  Ok (mkDatabase (jobs db) (rows db ++ [as_stored dec r2])
                                 (next_id db + 1), r2)).
    { rewrite (reconcile_absent dec norm db now2 j t st exc tb E Hjob).
      rewrite Hs. reflexivity. }
    exists db1, r1,
      (mkDatabase (jobs db) (rows db ++ [as_stored dec r2]) (next_id db + 1)),
      r2.
    split; [exact Hc1|]. split; [|split; [exact Hc2|]].
    + rewrite (reconcile_terminal_existing dec norm db1 now2 j t st exc tb
                 (as_stored dec r1)); auto.
      assert (Hr : overwritten st (total_seconds (norm now2 - norm t))
                               (timestamp (norm now2)) exc tb
                               (as_stored dec r1) = r2).
      { unfold overwritten, as_stored, r1, r2. simpl.
        destruct (truthy exc), (truthy tb); reflexivity. }
      rewrite Hr. unfold db1. simpl.
      rewrite (update_row_snoc (as_stored dec r1) (as_stored dec r2));
        [reflexivity | | reflexivity].
      intros x Hx. simpl.
      pose proof (ids_below_sequence db x Hwf Hx). lia.
    + simpl. do 8 (split; [reflexivity|]).
      intros Hn. unfold db1, r2, r1. now rewrite Hn.
Qed.

(** C4, as stated, fails: a duplicate of a terminal event that is delivered
    at a later clock reading moves [finished] and [duration], so the record
    after two deliveries differs from the record after one, in what the
    call returns and in what the table holds. *)
Lemma duplicate_terminal_event_moves_finished :
  exists db1 r1 db2 r2,
    recordEvent two_decimal_places keep (empty_database ["j1"]) 5000000
                executed_j1 = Ok (db1, r1)
    /\ recordEvent two_decimal_places keep db1 7000000 executed_j1
       = Ok (db2, r2)
    /\ finished r1 = Some (5000000 # 1000000)
    /\ finished r2 = Some (7000000 # 1000000)
    /\ duration r1 = Some (5000000 # 1000000)
    /\ duration r2 = Some (7000000 # 1000000)
    /\ r2 <> r1
    /\ rows db1 = [mkExecution 1 "j1" SUCCESS 0 (Some (500 # 100))
                               (Some (500 # 100)) None None]
    /\ rows db2 = [mkExecution 1 "j1" SUCCESS 0 (Some (700 # 100))
                               (Some (700 # 100)) None None]
    /\ db2 <> db1.
Proof.
  eexists _, _, _, _.
  split; [reflexivity|]. split; [reflexivity|].
  do 4 (split; [reflexivity|]).
  split; [intros H; discriminate H|].
  do 2 (split; [reflexivity|]).
  intros H; discriminate H.
Qed.

(** C4, amended: on a well-formed table, delivering a terminal event twice
    leaves the table exactly as one delivery at the time of the second one
    does.  When the job of the event is in the job table, both deliveries
    return, and the record after two deliveries is the record one delivery
    at the second time returns: it has the id, job, run time, status,
    exception and traceback of the record after the first delivery, with
    [finished] and [duration] of the second clock reading; when the two
    readings normalise to the same time, two deliveries leave the table and
    the record of one. *)
Theorem duplicate_terminal_event_last_reading_wins
    (dec : Q -> Q) (norm : datetime -> datetime) (db : database)
    (now1 now2 : datetime) (e : event) :
  well_formed db -> terminal (ev_status e) ->
  deliver dec norm (deliver dec norm db (now1, e)) (now2, e)
  = deliver dec norm db (now2, e)
  /\ (In (ev_job_id e) (jobs db) ->
      exists db1 r1 db2 r2,
        recordEvent dec norm db now1 e = Ok (db1, r1)
        /\ recordEvent dec norm db1 now2 e = Ok (db2, r2)
        /\ recordEvent dec norm db now2 e = Ok (db2, r2)
        /\ id r2 = id r1 /\ job_id r2 = job_id r1
        /\ run_time r2 = run_time r1
        /\ status r2 = status r1
        /\ exception r2 = exception r1 /\ traceback r2 = traceback r1
        /\ finished r2 = Some (timestamp (norm now2))
        /\ duration r2 =
             Some (total_seconds (norm now2 - norm (ev_run_time e)))
        /\ (norm now2 = norm now1 -> db2 = db1 /\ r2 = r1)).
Proof.
  destruct e as [j t st exc tb]. unfold recordEvent. simpl.
  intros Hwf Hst. split.
  - destruct (job_exists db j) eqn:Ej;
      [|destruct (existsb (key_matches j (norm t)) (rows db)) eqn:E].
    + destruct (duplicate_terminal_event_returns dec norm db now1 now2 j t st
                  exc tb Hwf Hst (or_introl Ej))
        as [db1 [r1 [db2 [r2 [H1 [H2 [H3 _]]]]]]].
      unfold deliver, recordEvent. simpl. rewrite H1, H3. now rewrite H2.
    + destruct (duplicate_terminal_event_returns dec norm db now1 now2 j t st
                  exc tb Hwf Hst (or_intror E))
        as [db1 [r1 [db2 [r2 [H1 [H2 [H3 _]]]]]]].
      unfold deliver, recordEvent. simpl. rewrite H1, H3. now rewrite H2.
    + unfold deliver, recordEvent. simpl.
      rewrite (reconcile_without_job dec norm db now1 j t st exc tb E Ej).
      now rewrite (reconcile_without_job dec norm db now2 j t st exc tb E Ej).
  - intros Hjob. apply job_exists_In in Hjob.
    apply (duplicate_terminal_event_returns dec norm db now1 now2 j t st exc
             tb Hwf Hst (or_introl Hjob)).
Qed.

Lemma duplicate_terminal_event_last_reading_wins_witness :
  deliver two_decimal_places keep
          (deliver two_decimal_places keep sample_db (8000000, executed_j1))
          (9005001, executed_j1)
  = mkDatabase ["j1"; "j2"; "j3"]
               [mkExecution 1 "j1" SUCCESS 0 (Some (901 # 100))
                            (Some (901 # 100)) (Some "boom") None;
                row_j2] 3
  /\ recordEvent two_decimal_places keep sample_db 9005001 executed_j1
     = Ok (mkDatabase ["j1"; "j2"; "j3"]
                      [mkExecution 1 "j1" SUCCESS 0 (Some (901 # 100))
                                   (Some (901 # 100)) (Some "boom") None;
                       row_j2] 3,
           mkExecution 1 "j1" SUCCESS 0 (Some (9005001 # 1000000))
                       (Some (9005001 # 1000000)) (Some "boom") None).
Proof.
  destruct (duplicate_terminal_event_last_reading_wins two_decimal_places
              keep sample_db 8000000 9005001 executed_j1
              sample_db_well_formed SUCCESS_terminal) as [Hsame _].
  split.
  - exact (eq_trans Hsame eq_refl).
  - reflexivity.
Defined.

(** ** Retention cleanup *)

Lemma deliver_keeps_rows (dec : Q -> Q) (norm : datetime -> datetime)
    (db : database) (d : datetime * event) (r : DjangoJobExecution) :
  well_formed db -> In r (rows db) ->
  exists r', In r' (rows (deliver dec norm db d))
             /\ id r' = id r /\ job_id r' = job_id r /\ run_time r' = run_time r.
Proof.
  intros Hwf Hin. destruct d as [now [j t st exc tb]].
  unfold deliver, recordEvent. simpl.
  destruct (reconcile_cases dec norm db now j t st exc tb Hwf)
    as [[r0 [Hin0 [Hj [Ht [Hs Hc]]]]]
       | [[r0 [Hin0 [Hj [Ht [Hs Hc]]]]] | [[E [Ej Hc]] | [E [Ej Hc]]]]];
    rewrite Hc; simpl.
  - exists r. auto.
  - set (r0' := overwritten st (total_seconds (norm now - norm t))
                            (timestamp (norm now)) exc tb r0).
    destruct (Z.eq_dec (id r) (id r0)) as [Heq | Hne].
    + assert (r = r0)
        by (apply (NoDup_map_injective id (rows db)); auto; apply Hwf).
      subst r. exists (as_stored dec r0'). split; [|auto].
      now apply update_row_In with (r := r0).
    + exists r. split; [|auto]. now apply update_row_other.
  - exists r. split; [|auto]. apply in_or_app. now left.
  - exists r. auto.
Qed.

(** C7, as stated, fails twice.  A record whose run time is later than the
    clock survives the cleanup with [max_age = 0], and the table that holds
    such a record is one the reconciler builds from the empty table.  And a
    record is deleted without any cleanup when its job is deleted, by the
    cascade of the foreign key. *)
Lemma retention_cleanup_counterexample :
  recordEvent two_decimal_places keep (empty_database ["j1"]) 5000000
              early_event = Ok (early_db, early_row)
  /\ rows (delete_old_job_executions early_db 5000000 0) = [early_row]
  /\ In row_j1 (rows sample_db)
  /\ ~ In row_j1 (rows (delete_job_cascade sample_db "j1")).
Proof.
  split; [reflexivity|]. split; [reflexivity|]. split.
  - simpl. now left.
  - simpl. intros [H | []]. discriminate H.
Qed.

(** C7, amended: the cleanup with [max_age = 0] removes exactly the records
    whose run time is not later than the current time, hence all of them
    when no record is scheduled later than now; with [max_age] strictly
    greater than the age of every record it removes none; a delivery to the
    reconciler never deletes a record, whereas deleting a job deletes the
    records of that job. *)
Theorem retention_cleanup_bounds (db : database) (now : datetime)
    (max_age : Z) :
  rows (delete_old_job_executions db now 0) =
    filter (fun r => now <? run_time r) (rows db)
  /\ ((forall r, In r (rows db) -> 0 <= age now r) ->
      rows (delete_old_job_executions db now 0) = [])
  /\ ((forall r, In r (rows db) -> age now r < timedelta_seconds max_age) ->
      delete_old_job_executions db now max_age = db)
  /\ (forall dec norm d r, well_formed db -> In r (rows db) ->
      exists r', In r' (rows (deliver dec norm db d))
                 /\ id r' = id r /\ job_id r' = job_id r
                 /\ run_time r' = run_time r)
  /\ (forall j r, In r (rows (delete_job_cascade db j)) <->
                  In r (rows db) /\ job_id r <> j).
Proof.
  assert (H0 : rows (delete_old_job_executions db now 0) =
               filter (fun r => now <? run_time r) (rows db)).
  { unfold delete_old_job_executions, timedelta_seconds. simpl.
    apply filter_ext. intros r. rewrite Z.sub_0_r.
    destruct (Z.leb_spec (run_time r) now), (Z.ltb_spec now (run_time r));
      simpl; try reflexivity; lia. }
  split; [exact H0|]. split; [|split; [|split]].
  - intros Hage. rewrite H0. apply filter_nil_iff, existsb_false_all.
    intros r Hr. apply Hage in Hr. unfold age in Hr.
    apply Z.ltb_ge. lia.
  - clear H0. intros Hage. destruct db as [js l n].
    unfold delete_old_job_executions. simpl in *. f_equal.
    induction l as [|a l IH]; simpl; [reflexivity|].
    assert (Ha : age now a < timedelta_seconds max_age)
      by (apply Hage; now left).
    unfold age in Ha.
    destruct (Z.leb_spec (run_time a) (now - timedelta_seconds max_age));
      simpl; [lia|].
    f_equal. apply IH. intros r Hr. apply Hage. now right.
  - intros dec norm d r Hwf Hin. now apply deliver_keeps_rows.
  - intros j r. unfold delete_job_cascade. simpl.
    rewrite filter_In, negb_true_iff, String.eqb_neq. tauto.
Qed.

Lemma retention_cleanup_bounds_witness :
  rows (delete_old_job_executions sample_db 3000000 0) = []
  /\ delete_old_job_executions sample_db 3000000 4 = sample_db.
Proof.
  destruct (retention_cleanup_bounds sample_db 3000000 4)
    as [_ [Hall [Hnone _]]].
  split.
  - apply Hall. intros r Hr. simpl in Hr.
    destruct Hr as [<- | [<- | []]];
      unfold age, row_j1, row_j2; cbn [run_time]; lia.
  - apply Hnone. intros r Hr. simpl in Hr.
    destruct Hr as [<- | [<- | []]];
      unfold age, timedelta_seconds, row_j1, row_j2; cbn [run_time]; lia.
Defined.

(** ** The run-now submission loop *)

Section RunNowFacts.

Import Admin.

Variable lookup_job : string -> option Job.t.

Lemma fold_submit_messages (queryset : list DjangoJob.t) (s : state) :
  messages (fold_left (submit lookup_job) queryset s) =
  messages s ++ warnings_of lookup_job queryset.
Proof.
  revert s. induction queryset as [|item qs IH]; intros s; simpl.
  - now rewrite app_nil_r.
  - rewrite IH. unfold submit, not_found_warning.
    destruct (lookup_job (DjangoJob.id item)); simpl.
    + reflexivity.
    + now rewrite <- app_assoc.
Qed.

Lemma fold_submit_scheduler (queryset : list DjangoJob.t) (s : state) :
  scheduler (fold_left (submit lookup_job) queryset s) =
  scheduler s ++ calls_of lookup_job queryset.
Proof.
  revert s. induction queryset as [|item qs IH]; intros s; simpl.
  - now rewrite app_nil_r.
  - rewrite IH. unfold submit.
    destruct (lookup_job (DjangoJob.id item)); simpl.
    + now rewrite <- app_assoc.
    + reflexivity.
Qed.

Lemma fold_submit_scheduled (queryset : list DjangoJob.t) (s : state)
    (i : string) :
  set_In i (_jobs_scheduled (fold_left (submit lookup_job) queryset s)) <->
  set_In i (_jobs_scheduled s)
  \/ exists item django_job,
       In item queryset
       /\ lookup_job (DjangoJob.id item) = Some django_job
       /\ Job.id django_job = i.
Proof.
  revert s. induction queryset as [|item qs IH]; intros s; simpl.
  - split; [now left | intros [H | [x [y [[] _]]]]; exact H].
  - rewrite IH. unfold submit.
    destruct (lookup_job (DjangoJob.id item)) as [django_job|] eqn:E; simpl.
    + rewrite set_add_iff. split.
      * intros [[Hi | Hi] | [x [y [Hx [Hl Hy]]]]].
        -- right. exists item, django_job. auto.
        -- now left.
        -- right. exists x, y. auto.
      * intros [Hi | [x [y [[Hx | Hx] [Hl Hy]]]]].
        -- left. now right.
        -- subst x. rewrite E in Hl. injection Hl as <-. left. left.
           now symmetry.
        -- right. exists x, y. auto.
    + split.
      * intros [Hi | [x [y [Hx [Hl Hy]]]]]; [now left|].
        right. exists x, y. auto.
      * intros [Hi | [x [y [[Hx | Hx] [Hl Hy]]]]]; [now left | |].
        -- subst x. rewrite E in Hl. discriminate Hl.
        -- right. exists x, y. auto.
Qed.

Lemma run_now_loop_characterised
    (queryset : list DjangoJob.t) :
  messages (run_selected_jobs lookup_job queryset) = warnings_of lookup_job queryset
  /\ scheduler (run_selected_jobs lookup_job queryset) = calls_of lookup_job queryset
  /\ (forall item, In item queryset ->
        lookup_job (DjangoJob.id item) = None ->
        In (not_found_warning item)
           (messages (run_selected_jobs lookup_job queryset)))
  /\ (forall item django_job, In item queryset ->
        lookup_job (DjangoJob.id item) = Some django_job ->
        In (call_of django_job)
           (scheduler (run_selected_jobs lookup_job queryset))
        /\ set_In (Job.id django_job)
                  (_jobs_scheduled (run_selected_jobs lookup_job queryset)))
  /\ (forall c, In c (scheduler (run_selected_jobs lookup_job queryset)) ->
        exists item django_job,
          In item queryset
          /\ lookup_job (DjangoJob.id item) = Some django_job
          /\ c = call_of django_job)
  /\ (forall i,
        set_In i (_jobs_scheduled (run_selected_jobs lookup_job queryset)) ->
        exists item django_job,
          In item queryset
          /\ lookup_job (DjangoJob.id item) = Some django_job
          /\ Job.id django_job = i).
Proof.
  unfold run_selected_jobs.
  rewrite fold_submit_messages, fold_submit_scheduler. simpl.
  split; [reflexivity|]. split; [reflexivity|].
  split; [|split; [|split]].
  - intros item Hin Hnone. unfold warnings_of. apply in_flat_map.
    exists item. split; [exact Hin|]. rewrite Hnone. now left.
  - intros item django_job Hin Hsome. split.
    + unfold calls_of. apply in_flat_map.
      exists item. split; [exact Hin|]. rewrite Hsome. now left.
    + apply fold_submit_scheduled. right. exists item, django_job. auto.
  - intros c Hc. unfold calls_of in Hc. apply in_flat_map in Hc.
    destruct Hc as [item [Hin Hc]].
    destruct (lookup_job (DjangoJob.id item)) as [django_job|] eqn:E.
    + destruct Hc as [<- | []]. exists item, django_job. auto.
    + destruct Hc.
  - intros i Hi. apply fold_submit_scheduled in Hi.
    destruct Hi as [[] | Hi]. exact Hi.
Qed.

(** C6: the loop of the run-now action runs over the whole queryset.  Every
    item whose job is absent from the job store gets its own warning and no
    call of [add_job]; every item whose job is found is submitted with
    [add_job], with no trigger and with the function, arguments, id, name,
    misfire grace time, coalesce flag and instance limit of the job, and its
    id is recorded in [_jobs_scheduled], whatever other items are missing.
    The messages are exactly the warnings of the missing items and the calls
    exactly those of the found ones, in queryset order. *)
Theorem run_now_skips_missing_and_submits_found
    (queryset : list DjangoJob.t) :
  messages (run_selected_jobs lookup_job queryset) =
    flat_map (fun item =>
                match lookup_job (DjangoJob.id item) with
                | None => [mkMessage messages_WARNING
                                      (task_not_found (DjangoJob.id item))]
                | Some _ => []
                end) queryset
  /\ scheduler (run_selected_jobs lookup_job queryset) =
    flat_map (fun item =>
                match lookup_job (DjangoJob.id item) with
                | None => []
                | Some django_job =>
                    [mkCall (Job.func_ref django_job) None
                            (Job.args django_job) (Job.kwargs django_job)
                            (Job.id django_job) (Job.name django_job)
                            (Job.misfire_grace_time django_job)
                            (Job.coalesce django_job)
                            (Job.max_instances django_job)]
                end) queryset
  /\ (forall item, In item queryset ->
        lookup_job (DjangoJob.id item) = None ->
        In (mkMessage messages_WARNING (task_not_found (DjangoJob.id item)))
           (messages (run_selected_jobs lookup_job queryset)))
  /\ (forall item django_job, In item queryset ->
        lookup_job (DjangoJob.id item) = Some django_job ->
        In (mkCall (Job.func_ref django_job) None
                   (Job.args django_job) (Job.kwargs django_job)
                   (Job.id django_job) (Job.name django_job)
                   (Job.misfire_grace_time django_job)
                   (Job.coalesce django_job)
                   (Job.max_instances django_job))
           (scheduler (run_selected_jobs lookup_job queryset))
        /\ set_In (Job.id django_job)
                  (_jobs_scheduled (run_selected_jobs lookup_job queryset)))
  /\ (forall c, In c (scheduler (run_selected_jobs lookup_job queryset)) ->
        exists item django_job,
          In item queryset
          /\ lookup_job (DjangoJob.id item) = Some django_job
          /\ func c = Job.func_ref django_job
          /\ trigger c = None
          /\ args c = Job.args django_job
          /\ kwargs c = Job.kwargs django_job
          /\ Admin.id c = Job.id django_job
          /\ name c = Job.name django_job
          /\ misfire_grace_time c = Job.misfire_grace_time django_job
          /\ coalesce c = Job.coalesce django_job
          /\ max_instances c = Job.max_instances django_job)
  /\ (forall i,
        set_In i (_jobs_scheduled (run_selected_jobs lookup_job queryset)) ->
        exists item django_job,
          In item queryset
          /\ lookup_job (DjangoJob.id item) = Some django_job
          /\ Job.id django_job = i).
Proof.
  destruct (run_now_loop_characterised queryset)
    as [Hm [Hs [Hwarn [Hfound [Hcalls Hids]]]]].
  split; [exact Hm|]. split; [exact Hs|]. split; [exact Hwarn|].
  split; [exact Hfound|]. split; [|exact Hids].
  intros c Hc. destruct (Hcalls c Hc) as [item [django_job [Hin [Hl ->]]]].
  exists item, django_job. simpl. repeat split; assumption.
Qed.

End RunNowFacts.

Lemma run_now_skips_missing_and_submits_found_witness :
  Admin.messages (Admin.run_selected_jobs store_with_j1 queryset_j2_j1) =
    [Admin.mkMessage Admin.messages_WARNING (Admin.task_not_found "j2")]
  /\ Admin.scheduler (Admin.run_selected_jobs store_with_j1 queryset_j2_j1) =
     [Admin.mkCall "tasks:task_report" None ["daily"] [("retries", "3")] "j1"
                   "task_report" (Some 30) true 1]
  /\ set_In "j1"
            (Admin._jobs_scheduled
               (Admin.run_selected_jobs store_with_j1 queryset_j2_j1)).
Proof.
  destruct (run_now_skips_missing_and_submits_found store_with_j1
              queryset_j2_j1) as [Hm [Hs [_ [Hfound _]]]].
  split; [exact Hm|]. split; [exact Hs|].
  apply (Hfound (DjangoJob.mk "j1" (Some 0) "") job_j1).
  - simpl. right. now left.
  - reflexivity.
Defined.

Example run_now_scenario_C :
  Admin.run_selected_jobs store_with_j1 queryset_j2_j1 =
  Admin.mkState
    [Admin.mkMessage Admin.messages_WARNING (Admin.task_not_found "j2")]
    [Admin.mkCall "tasks:task_report" None ["daily"] [("retries", "3")] "j1"
                  "task_report" (Some 30) true 1]
    ["j1"].
Proof. reflexivity. Qed.

(** ** The task registry *)

(** C8, as stated, fails: for a name the registry does not hold, the lookup
    returns [None]; it raises nothing. *)
Lemma task_func_unknown_name_returns_None :
  ~ Descovertasks.registered sample_tasks "task_missing"
  /\ Descovertasks.task_func sample_tasks "task_missing" = Ok None
  /\ Descovertasks.task_func sample_tasks "task_missing"
     <> Raise TaskNotFoundError.
Proof.
  split; [|split].
  - unfold Descovertasks.registered. simpl.
    intros [H | [H | []]]; discriminate H.
  - reflexivity.
  - discriminate.
Qed.

Lemma task_func_find {callable : Type}
    (task_list : list (Descovertasks.Task callable)) (n : string) :
  Descovertasks.task_func task_list n =
  Ok (option_map Descovertasks.func
                 (find (Descovertasks.name_is n) task_list)).
Proof.
  induction task_list as [|task rest IH]; simpl; [reflexivity|].
  destruct (Descovertasks.name_is n task); [reflexivity | exact IH].
Qed.

(** C8, amended: for a name the registry does not hold, [task_func] returns
    [None] and raises no error; for a registered name it returns the
    callable of the first task registered under that name. *)
Theorem task_func_returns_callable_or_None {callable : Type}
    (task_list : list (Descovertasks.Task callable)) (n : string) :
  (~ Descovertasks.registered task_list n ->
   Descovertasks.task_func task_list n = Ok None)
  /\ (Descovertasks.registered task_list n ->
      exists task,
        find (Descovertasks.name_is n) task_list = Some task
        /\ In task task_list
        /\ Descovertasks.name task = n
        /\ Descovertasks.task_func task_list n =
           Ok (Some (Descovertasks.func task))).
Proof.
  rewrite task_func_find. unfold Descovertasks.registered. split.
  - intros Hnot.
    destruct (find (Descovertasks.name_is n) task_list) as [task|] eqn:E;
      [|reflexivity].
    apply find_some in E. destruct E as [Hin Hn].
    apply String.eqb_eq in Hn. exfalso. apply Hnot.
    rewrite <- Hn. now apply in_map.
  - intros Hreg. apply in_map_iff in Hreg. destruct Hreg as [x [Hx Hin]].
    destruct (find (Descovertasks.name_is n) task_list) as [task|] eqn:E.
    + exists task. pose proof (find_some _ _ E) as [Hin' Hn].
      apply String.eqb_eq in Hn. auto.
    + exfalso. pose proof (find_none _ _ E x Hin) as Hn.
      unfold Descovertasks.name_is in Hn. rewrite Hx, String.eqb_refl in Hn.
      discriminate Hn.
Qed.

Lemma task_func_returns_callable_or_None_witness :
  Descovertasks.task_func sample_tasks "task_missing" = Ok None
  /\ Descovertasks.task_func sample_tasks "task_purge" = Ok (Some 2%nat).
Proof.
  split.
  - apply (proj1 (task_func_returns_callable_or_None sample_tasks
                    "task_missing")).
    unfold Descovertasks.registered. simpl.
    intros [H | [H | []]]; discriminate H.
  - reflexivity.
Defined.

(** ** The declared statuses *)

(** C9 on the code: the class declares five distinct statuses and the admin
    colours all five, but [STATUS_CHOICES], the admissible set declared for
    the [status] field, lists three of them: [MISSED] and [MAX_INSTANCES]
    are left out.  The reconciler stores the status it is given, so a Missed
    event yields a record whose status is outside the declared choices. *)
Theorem status_choices_leave_out_two_statuses :
  map fst STATUS_CHOICES = [SENT; ERROR; SUCCESS]
  /\ NoDup [SENT; SUCCESS; MISSED; MAX_INSTANCES; ERROR]
  /\ map fst Admin.status_color_mapping =
     [SUCCESS; SENT; MAX_INSTANCES; MISSED; ERROR]
  /\ ~ In MISSED (map fst STATUS_CHOICES)
  /\ ~ In MAX_INSTANCES (map fst STATUS_CHOICES)
  /\ (exists db r row,
        recordEvent two_decimal_places keep (empty_database ["j1"]) 5000000
                    (mkEvent "j1" 0 MISSED None None) = Ok (db, r)
        /\ status r = MISSED
        /\ rows db = [row]
        /\ status row = MISSED
        /\ ~ In (status row) (map fst STATUS_CHOICES)).
Proof.
  split; [reflexivity|]. split.
  - repeat constructor; simpl; intuition discriminate.
  - split; [reflexivity|]. split; [|split].
    + simpl. intros [H | [H | [H | []]]]; discriminate H.
    + simpl. intros [H | [H | [H | []]]]; discriminate H.
    + eexists _, _, _. split; [reflexivity|]. split; [reflexivity|].
      split; [reflexivity|]. split; [reflexivity|].
      simpl. intros [H | [H | [H | []]]]; discriminate H.
Qed.

(** * Further properties of the reconciler *)

Lemma update_row_In_inv (r' x : DjangoJobExecution)
    (l : list DjangoJobExecution) :
  In x (update_row r' l) -> x = r' \/ In x l.
Proof.
  unfold update_row. intros H. apply in_map_iff in H.
  destruct H as [y [Hy Hin]].
  destruct (id y =? id r'); [left; now symmetry | right; now subst y].
Qed.

Lemma overwritten_id (st : string) (d f : Q) (exc tb : option string)
    (r : DjangoJobExecution) :
  id (overwritten st d f exc tb r) = id r.
Proof. reflexivity. Qed.

(** A call returns when the job is in the job table or a record exists for
    the pair; the table then has one row for the pair, which agrees with
    the record returned except in the precision of the decimal columns. *)
Lemma reconcile_returns (dec : Q -> Q) (norm : datetime -> datetime)
    (db : database) (now : datetime) (j : string) (t : datetime)
    (st : string) (exc tb : option string) :
  well_formed db ->
  job_exists db j = true
  \/ existsb (key_matches j (norm t)) (rows db) = true ->
  exists db' r' row,
    atomic_update_or_create dec norm db now j t st exc tb = Ok (db', r')
    /\ well_formed db'
    /\ objects_get db' j (norm t) = Ok row
    /\ In row (rows db')
    /\ id row = id r' /\ job_id row = j /\ run_time row = norm t
    /\ job_id r' = j /\ run_time r' = norm t
    /\ status row = status r'
    /\ exception row = exception r' /\ traceback row = traceback r'
    /\ jobs db' = jobs db
    /\ next_id db <= next_id db'.
Proof.
  intros Hwf Hsome.
  assert (Hgoal : exists db' r' row,
    atomic_update_or_create dec norm db now j t st exc tb = Ok (db', r')
    /\ well_formed db'
    /\ In row (rows db')
    /\ id row = id r' /\ job_id row = j /\ run_time row = norm t
    /\ job_id r' = j /\ run_time r' = norm t
    /\ status row = status r'
    /\ exception row = exception r' /\ traceback row = traceback r'
    /\ jobs db' = jobs db
    /\ next_id db <= next_id db').
  { destruct (reconcile_cases dec norm db now j t st exc tb Hwf)
      as [[r [Hin [Hj [Ht [Hs Hc]]]]]
         | [[r [Hin [Hj [Ht [Hs Hc]]]]] | [[E [Ej Hc]] | [E [Ej Hc]]]]].
    - exists db, r, r. repeat split; auto; try apply Hwf. lia.
    - eexists _, _,
        (as_stored dec
           (overwritten st (total_seconds (norm now - norm t))
                        (timestamp (norm now)) exc tb r)).
      split; [exact Hc|]. split; [|split].
      + apply save_existing_well_formed with (r := r); auto.
      + simpl. now apply update_row_In with (r := r).
      + simpl. repeat split; auto. lia.
    - eexists _, _, _.
      split; [exact Hc|]. split; [|split].
      + apply create_fresh_well_formed; auto.
      + simpl. apply in_or_app. right. left. reflexivity.
      + simpl. repeat split; auto. lia.
    - exfalso. destruct Hsome as [H | H]; congruence. }
  destruct Hgoal
    as [db' [r' [row [Hc [Hwf' [Hin [Hid [Hj [Ht Hrest]]]]]]]]].
  exists db', r', row.
  split; [exact Hc|]. split; [exact Hwf'|]. split.
  - rewrite <- Hj, <- Ht. apply objects_get_found; [apply Hwf' | exact Hin].
  - auto.
Qed.

(** X1: on a well-formed table the reconciler raises only for a job that is
    not in the job table.  When the job is in the job table, or a record
    exists for the pair, the call returns a record; the resulting table is
    well-formed again, has the same jobs, and holds for the pair one row
    with the id, status, exception and traceback of the record returned;
    the primary-key sequence does not go back.  When the job is not in the
    job table and no record exists for the pair, the call raises
    [IntegrityError]. *)
Theorem reconciler_returns_on_well_formed_table
    (dec : Q -> Q) (norm : datetime -> datetime) (db : database)
    (now : datetime) (j : string) (t : datetime) (st : string)
    (exc tb : option string) :
  well_formed db ->
  (In j (jobs db)
   \/ (exists r, In r (rows db) /\ job_id r = j /\ run_time r = norm t) ->
   exists db' r' row,
     atomic_update_or_create dec norm db now j t st exc tb = Ok (db', r')
     /\ well_formed db'
     /\ objects_get db' j (norm t) = Ok row
     /\ In row (rows db')
     /\ id row = id r' /\ job_id row = j /\ run_time row = norm t
     /\ job_id r' = j /\ run_time r' = norm t
     /\ status row = status r'
     /\ exception row = exception r' /\ traceback row = traceback r'
     /\ jobs db' = jobs db
     /\ next_id db <= next_id db')
  /\ (~ In j (jobs db) ->
      (forall r, In r (rows db) -> ~ (job_id r = j /\ run_time r = norm t)) ->
      atomic_update_or_create dec norm db now j t st exc tb
      = Raise IntegrityError).
Proof.
  intros Hwf. split.
  - intros Hsome. apply reconcile_returns; [exact Hwf|].
    destruct Hsome as [Hjob | [r [Hin [Hj Ht]]]].
    + left. now apply job_exists_In.
    + right. apply existsb_exists. exists r. split; [exact Hin|].
      now apply key_matches_true.
  - intros Hjob Hnone. apply reconcile_without_job.
    + apply existsb_false_all. intros x Hx.
      destruct (key_matches j (norm t) x) eqn:E; [|reflexivity].
      apply key_matches_true in E. exfalso. exact (Hnone x Hx E).
    + now apply job_exists_not_In.
Qed.

Lemma reconciler_returns_on_well_formed_table_witness :
  (exists db' r' row,
     atomic_update_or_create two_decimal_places keep sample_db 9005001 "j2"
                             3000000 ERROR (Some "boom") None = Ok (db', r')
     /\ well_formed db'
     /\ objects_get db' "j2" 3000000 = Ok row
     /\ In row (rows db')
     /\ id row = id r' /\ job_id row = "j2" /\ run_time row = 3000000
     /\ job_id r' = "j2" /\ run_time r' = 3000000
     /\ status row = status r'
     /\ exception row = exception r' /\ traceback row = traceback r'
     /\ jobs db' = ["j1"; "j2"; "j3"]
     /\ 3 <= next_id db')
  /\ atomic_update_or_create two_decimal_places keep sample_db 9005001 "j9"
                             3000000 ERROR (Some "boom") None
     = Raise IntegrityError.
Proof.
  destruct (reconciler_returns_on_well_formed_table two_decimal_places keep
              sample_db 9005001 "j2" 3000000 ERROR (Some "boom") None
              sample_db_well_formed) as [Hret _].
  split.
  - apply Hret. left. simpl. auto.
  - reflexivity.
Defined.

(** X2: a delivery never removes, reorders or renumbers rows, and never
    touches the job table: the primary keys and the (job id, run time) pairs
    of the table are those it had before, followed by the next primary key
    and the event's pair exactly when no record existed for that pair and
    the job of the event is in the job table. *)
Theorem delivery_is_append_only
    (dec : Q -> Q) (norm : datetime -> datetime) (db : database)
    (now : datetime) (e : event) :
  well_formed db ->
  map id (rows (deliver dec norm db (now, e))) =
    map id (rows db) ++
    (if existsb (key_matches (ev_job_id e) (norm (ev_run_time e))) (rows db)
     then []
     else if job_exists db (ev_job_id e) then [next_id db] else [])
  /\ map key (rows (deliver dec norm db (now, e))) =
    map key (rows db) ++
    (if existsb (key_matches (ev_job_id e) (norm (ev_run_time e))) (rows db)
     then []
     else if job_exists db (ev_job_id e)
          then [(ev_job_id e, norm (ev_run_time e))] else [])
  /\ jobs (deliver dec norm db (now, e)) = jobs db.
Proof.
  intros Hwf. destruct e as [j t st exc tb]. unfold deliver, recordEvent.
  simpl.
  destruct (reconcile_cases dec norm db now j t st exc tb Hwf)
    as [[r [Hin [Hj [Ht [Hs Hc]]]]]
       | [[r [Hin [Hj [Ht [Hs Hc]]]]] | [[E [Ej Hc]] | [E [Ej Hc]]]]];
    rewrite Hc; simpl.
  - assert (E : existsb (key_matches j (norm t)) (rows db) = true).
    { apply existsb_exists. exists r. split; [exact Hin|].
      now apply key_matches_true. }
    rewrite E, !app_nil_r. auto.
  - assert (E : existsb (key_matches j (norm t)) (rows db) = true).
    { apply existsb_exists. exists r. split; [exact Hin|].
      now apply key_matches_true. }
    rewrite E, !app_nil_r. split; [|split; [|reflexivity]].
    + apply update_row_ids.
    + apply update_row_keys with (r := r); auto.
  - rewrite E, Ej, !map_app. auto.
  - rewrite E, Ej, !app_nil_r. auto.
Qed.

Lemma delivery_is_append_only_witness :
  map id (rows (deliver two_decimal_places keep sample_db
                        (9005001, mkEvent "j3" 3000004 SENT None None)))
  = [1; 2; 3]
  /\ map key (rows (deliver two_decimal_places keep sample_db
                            (9005001, mkEvent "j3" 3000004 SENT None None)))
     = [("j1", 0); ("j2", 3000000); ("j3", 3000004)]
  /\ jobs (deliver two_decimal_places keep sample_db
                   (9005001, mkEvent "j3" 3000004 SENT None None))
     = ["j1"; "j2"; "j3"].
Proof.
  apply (delivery_is_append_only two_decimal_places keep sample_db 9005001
           (mkEvent "j3" 3000004 SENT None None)).
  apply sample_db_well_formed.
Defined.

(** X3: a delivery for one pair leaves the records of every other pair as
    they are: a row whose pair differs from the event's is in the table
    after the delivery exactly when it was in it before. *)
Theorem delivery_leaves_other_pairs_alone
    (dec : Q -> Q) (norm : datetime -> datetime) (db : database)
    (now : datetime) (e : event) (x : DjangoJobExecution) :
  well_formed db ->
  ~ (job_id x = ev_job_id e /\ run_time x = norm (ev_run_time e)) ->
  (In x (rows (deliver dec norm db (now, e))) <-> In x (rows db)).
Proof.
  intros Hwf Hx. destruct e as [j t st exc tb]. unfold deliver, recordEvent.
  simpl in *.
  destruct (reconcile_cases dec norm db now j t st exc tb Hwf)
    as [[r [Hin [Hj [Ht [Hs Hc]]]]]
       | [[r [Hin [Hj [Ht [Hs Hc]]]]] | [[E [Ej Hc]] | [E [Ej Hc]]]]];
    rewrite Hc; simpl.
  - tauto.
  - set (r' := overwritten st (total_seconds (norm now - norm t))
                           (timestamp (norm now)) exc tb r).
    split.
    + intros Hi. apply update_row_In_inv in Hi.
      destruct Hi as [-> | Hi]; [|exact Hi].
      exfalso. apply Hx. simpl. auto.
    + intros Hi. apply update_row_other; [exact Hi|].
      intros Hid. apply Hx.
      assert (x = r)
        by (apply (NoDup_map_injective id (rows db)); auto; apply Hwf).
      subst x. auto.
  - rewrite in_app_iff. simpl. split; [|tauto].
    intros [Hi | [Hi | []]]; [exact Hi|].
    exfalso. apply Hx. subst x. simpl. auto.
  - tauto.
Qed.

Lemma delivery_leaves_other_pairs_alone_witness :
  In row_j2 (rows (deliver two_decimal_places keep sample_db
                           (9005001, executed_j1)))
  <-> In row_j2 (rows sample_db).
Proof.
  apply (delivery_leaves_other_pairs_alone two_decimal_places keep sample_db
           9005001 executed_j1 row_j2).
  - apply sample_db_well_formed.
  - intros [H _]. discriminate H.
Defined.

(** X4: a Submitted event and a terminal event for the same firing may
    arrive in either order.  When the terminal event carries an exception
    and a traceback that are absent or non-empty, delivering the Submitted
    event before it, or after it, leaves the table exactly as the terminal
    event alone does. *)
Theorem submitted_and_terminal_events_commute
    (dec : Q -> Q) (norm : datetime -> datetime) (db : database)
    (n1 n2 n3 : datetime)
    (j : string) (t : datetime) (st : string) (exc tb : option string) :
  well_formed db -> terminal st ->
  exc = None \/ truthy exc = true ->
  tb = None \/ truthy tb = true ->
  deliver dec norm (deliver dec norm db (n1, mkEvent j t SENT None None))
                   (n2, mkEvent j t st exc tb)
  = deliver dec norm db (n2, mkEvent j t st exc tb)
  /\ deliver dec norm (deliver dec norm db (n2, mkEvent j t st exc tb))
                      (n3, mkEvent j t SENT None None)
     = deliver dec norm db (n2, mkEvent j t st exc tb).
Proof.
  intros Hwf Hst Hexc Htb.
  assert (Hlate : forall db0, well_formed db0 ->
            deliver dec norm (deliver dec norm db0 (n2, mkEvent j t st exc tb))
                             (n3, mkEvent j t SENT None None)
            = deliver dec norm db0 (n2, mkEvent j t st exc tb)).
  { intros db0 Hwf0. unfold deliver at 1. unfold recordEvent. simpl.
    unfold deliver, recordEvent. simpl.
    destruct (job_exists db0 j) eqn:Ej;
      [|destruct (existsb (key_matches j (norm t)) (rows db0)) eqn:E].
    - destruct (reconcile_returns dec norm db0 n2 j t st exc tb Hwf0
                  (or_introl Ej))
        as [db' [r' [row [Hc [Hwf' [_ [Hin [_ [Hj [Ht _]]]]]]]]]].
      rewrite Hc.
      rewrite (reconcile_submitted_existing dec norm db' n3 j t SENT None None
                 row); auto. apply Hwf'.
    - destruct (reconcile_returns dec norm db0 n2 j t st exc tb Hwf0
                  (or_intror E))
        as [db' [r' [row [Hc [Hwf' [_ [Hin [_ [Hj [Ht _]]]]]]]]]].
      rewrite Hc.
      rewrite (reconcile_submitted_existing dec norm db' n3 j t SENT None None
                 row); auto. apply Hwf'.
    - rewrite (reconcile_without_job dec norm db0 n2 j t st exc tb E Ej).
      now rewrite (reconcile_without_job dec norm db0 n3 j t SENT None None
                     E Ej). }
  split; [|apply Hlate; exact Hwf].
  destruct (existsb (key_matches j (norm t)) (rows db)) eqn:E.
  - apply existsb_exists in E. destruct E as [r [Hin Hm]].
    apply key_matches_true in Hm. destruct Hm as [Hj Ht].
    unfold deliver at 2. unfold recordEvent. simpl.
    rewrite (reconcile_submitted_existing dec norm db n1 j t SENT None None r);
      auto. apply Hwf.
  - destruct (job_exists db j) eqn:Ej.
    + unfold deliver, recordEvent. simpl.
      rewrite (reconcile_absent dec norm db n1 j t SENT None None E Ej).
      rewrite (reconcile_absent dec norm db n2 j t st exc tb E Ej).
      rewrite String.eqb_refl.
      assert (Hs : String.eqb st SENT = false) by now apply String.eqb_neq.
      rewrite Hs.
      set (r1 := mkExecution (next_id db) j SENT (norm t)
                             None None None None).
      change (as_stored dec r1) with r1.
      set (db1 := mkDatabase (jobs db) (rows db ++ [r1]) (next_id db + 1)).
      assert (Hwf1 : well_formed db1)
        by (apply (create_fresh_well_formed dec db j (norm t) SENT None None
                     None None E Hwf)).
      rewrite (reconcile_terminal_existing dec norm db1 n2 j t st exc tb r1);
        auto.
      * unfold db1, overwritten, r1. simpl.
        assert (He : (if truthy exc then exc else None) = exc)
          by (destruct Hexc as [-> | ->]; reflexivity).
        assert (Ht : (if truthy tb then tb else None) = tb)
          by (destruct Htb as [-> | ->]; reflexivity).
        rewrite He, Ht.
        rewrite (update_row_snoc r1); [reflexivity | | reflexivity].
        intros x Hx. simpl.
        pose proof (ids_below_sequence db x Hwf Hx). lia.
      * simpl. apply in_or_app. right. now left.
    + unfold deliver, recordEvent. simpl.
      rewrite (reconcile_without_job dec norm db n1 j t SENT None None E Ej).
      reflexivity.
Qed.

Lemma submitted_and_terminal_events_commute_witness :
  deliver two_decimal_places keep
          (deliver two_decimal_places keep sample_db
                   (8000000, mkEvent "j3" 7000000 SENT None None))
          (9005001, mkEvent "j3" 7000000 ERROR (Some "boom") None)
  = deliver two_decimal_places keep sample_db
            (9005001, mkEvent "j3" 7000000 ERROR (Some "boom") None)
  /\ deliver two_decimal_places keep
             (deliver two_decimal_places keep sample_db
                (9005001, mkEvent "j3" 7000000 ERROR (Some "boom") None))
             (9500000, mkEvent "j3" 7000000 SENT None None)
     = deliver two_decimal_places keep sample_db
               (9005001, mkEvent "j3" 7000000 ERROR (Some "boom") None).
Proof.
  apply (submitted_and_terminal_events_commute two_decimal_places keep
           sample_db 8000000 9005001 9500000 "j3" 7000000 ERROR
           (Some "boom") None).
  - apply sample_db_well_formed.
  - unfold terminal. discriminate.
  - right. reflexivity.
  - left. reflexivity.
Defined.

(** ** Status and completion fields over sequences of deliveries *)

Lemma deliver_completion_matches_status (dec : Q -> Q)
    (norm : datetime -> datetime) (db : database) (d : datetime * event) :
  well_formed db -> completion_matches_status db ->
  completion_matches_status (deliver dec norm db d).
Proof.
  intros Hwf Hinv. destruct d as [now [j t st exc tb]].
  unfold deliver, recordEvent. simpl.
  destruct (reconcile_cases dec norm db now j t st exc tb Hwf)
    as [[r [Hin [Hj [Ht [Hs Hc]]]]]
       | [[r [Hin [Hj [Ht [Hs Hc]]]]] | [[E [Ej Hc]] | [E [Ej Hc]]]]];
    rewrite Hc; simpl.
  - exact Hinv.
  - intros x Hx. simpl in Hx. apply update_row_In_inv in Hx.
    destruct Hx as [-> | Hx]; [|now apply Hinv].
    simpl. split; [intros H; contradiction | intros _; split; discriminate].
  - intros x Hx. simpl in Hx. apply in_app_or in Hx.
    destruct Hx as [Hx | [<- | []]]; [now apply Hinv|].
    simpl. destruct (String.eqb st SENT) eqn:Es.
    + apply String.eqb_eq in Es. split; [auto | intros H; contradiction].
    + apply String.eqb_neq in Es.
      split; [intros H; contradiction | intros _; split; discriminate].
  - exact Hinv.
Qed.

(** X5: in every table the reconciler builds from an empty execution table,
    whatever the jobs of the job table and whatever the conversion of the
    decimal columns, a record has null [duration] and [finished] when its
    status is Submitted, and has both set when its status is anything
    else. *)
Theorem completion_fields_follow_status
    (dec : Q -> Q) (norm : datetime -> datetime) (js : list string)
    (ds : list (datetime * event)) (r : DjangoJobExecution) :
  In r (rows (fold_left (deliver dec norm) ds (empty_database js))) ->
  (status r = SENT -> duration r = None /\ finished r = None)
  /\ (status r <> SENT -> duration r <> None /\ finished r <> None).
Proof.
  assert (H : forall db, well_formed db -> completion_matches_status db ->
                completion_matches_status
                  (fold_left (deliver dec norm) ds db)).
  { induction ds as [|d ds' IH]; intros db Hwf Hinv; simpl; [exact Hinv|].
    apply IH.
    - now apply deliver_well_formed.
    - now apply deliver_completion_matches_status. }
  apply H.
  - apply empty_database_well_formed.
  - intros x [].
Qed.

Lemma completion_fields_follow_status_witness :
  (status (mkExecution 2 "j2" ERROR 3000000
             (Some (100 # 100)) (Some (400 # 100))
             (Some "boom") (Some "trace")) = SENT ->
   Some (100 # 100) = None /\ Some (400 # 100) = None)
  /\ (status (mkExecution 2 "j2" ERROR 3000000
             (Some (100 # 100)) (Some (400 # 100))
             (Some "boom") (Some "trace")) <> SENT ->
      Some (100 # 100) <> (None : option Q)
      /\ Some (400 # 100) <> (None : option Q)).
Proof.
  apply (completion_fields_follow_status two_decimal_places keep
           ["j1"; "j2"] sample_deliveries
           (mkExecution 2 "j2" ERROR 3000000
              (Some (100 # 100)) (Some (400 # 100))
              (Some "boom") (Some "trace"))).
  right. left. reflexivity.
Defined.

(** X6: a terminal status never goes back to Submitted.  A record of a
    well-formed table whose status is not Submitted is still in the table
    after any sequence of deliveries, under the same id and pair, with a
    status that is not Submitted. *)
Theorem terminal_status_never_regresses
    (dec : Q -> Q) (norm : datetime -> datetime)
    (ds : list (datetime * event))
    (db : database) (r : DjangoJobExecution) :
  well_formed db -> In r (rows db) -> status r <> SENT ->
  exists r',
    In r' (rows (fold_left (deliver dec norm) ds db))
    /\ id r' = id r /\ job_id r' = job_id r /\ run_time r' = run_time r
    /\ status r' <> SENT.
Proof.
  revert db r. induction ds as [|d ds IH]; intros db r Hwf Hin Hst; simpl.
  - exists r. auto.
  - assert (Hstep : exists r1,
              In r1 (rows (deliver dec norm db d))
              /\ id r1 = id r /\ job_id r1 = job_id r
              /\ run_time r1 = run_time r /\ status r1 <> SENT).
    { destruct d as [now [j t st exc tb]]. unfold deliver, recordEvent. simpl.
      destruct (reconcile_cases dec norm db now j t st exc tb Hwf)
        as [[r0 [Hin0 [Hj [Ht [Hs Hc]]]]]
           | [[r0 [Hin0 [Hj [Ht [Hs Hc]]]]]
             | [[E [Ej Hc]] | [E [Ej Hc]]]]];
        rewrite Hc; simpl.
      - exists r. auto.
      - destruct (Z.eq_dec (id r) (id r0)) as [Heq | Hne].
        + assert (r = r0)
            by (apply (NoDup_map_injective id (rows db)); auto; apply Hwf).
          subst r0. eexists. split.
          * apply update_row_In with (r := r); [exact Hin | reflexivity].
          * simpl. auto.
        + exists r. split; [|auto]. now apply update_row_other.
      - exists r. split; [|auto]. apply in_or_app. now left.
      - exists r. auto. }
    destruct Hstep as [r1 [Hin1 [Hid1 [Hj1 [Ht1 Hst1]]]]].
    destruct (IH (deliver dec norm db d) r1
                 (deliver_well_formed dec norm db d Hwf)
                 Hin1 Hst1) as [r' [Hin' [Hid' [Hj' [Ht' Hst']]]]].
    exists r'. repeat split; auto; congruence.
Qed.

Lemma terminal_status_never_regresses_witness :
  exists r',
    In r' (rows (fold_left (deliver two_decimal_places keep)
                           sample_deliveries sample_db))
    /\ id r' = 1 /\ job_id r' = "j1" /\ run_time r' = 0
    /\ status r' <> SENT.
Proof.
  apply (terminal_status_never_regresses two_decimal_places keep
           sample_deliveries sample_db row_j1).
  - apply sample_db_well_formed.
  - simpl. now left.
  - discriminate.
Defined.

(** * Further properties of the retention cleanup *)

Section FilteredRows.

Variables (B : Type) (column : DjangoJobExecution -> B)
          (kept : DjangoJobExecution -> bool).

Lemma filter_rows_NoDup (rs : list DjangoJobExecution) :
  NoDup (map column rs) -> NoDup (map column (filter kept rs)).
Proof.
  induction rs as [|r rs IH]; simpl; intros Hnd; [constructor|].
  inversion Hnd as [|? ? Hr Hrs]; subst.
  destruct (kept r); simpl; [|now apply IH].
  constructor; [|now apply IH].
  intros Hi. apply Hr. apply in_map_iff in Hi. destruct Hi as [x [Hx Hin]].
  apply filter_In in Hin. rewrite <- Hx. apply in_map. tauto.
Qed.

Lemma filter_rows_Forall (P : B -> Prop) (rs : list DjangoJobExecution) :
  Forall P (map column rs) -> Forall P (map column (filter kept rs)).
Proof.
  induction rs as [|r rs IH]; simpl; intros H; [constructor|].
  inversion H; subst. destruct (kept r); simpl; auto.
Qed.

End FilteredRows.

Lemma cleanup_well_formed (db : database) (now : datetime) (max_age : Z) :
  well_formed db -> well_formed (delete_old_job_executions db now max_age).
Proof.
  intros [[Hnd Hlt] Hu].
  unfold well_formed, primary_keys_ok, unique_job_executions,
    delete_old_job_executions. simpl.
  repeat split.
  - now apply filter_rows_NoDup.
  - now apply filter_rows_Forall.
  - now apply filter_rows_NoDup.
Qed.

(** X7: uniqueness of the (job id, run time) pair, and with it the
    well-formedness of the table, is kept by every interleaving of
    deliveries to the reconciler and retention cleanups. *)
Theorem uniqueness_kept_by_deliveries_and_cleanups
    (dec : Q -> Q) (norm : datetime -> datetime) (ops : list operation)
    (db : database) :
  well_formed db ->
  well_formed (fold_left (apply_operation dec norm) ops db)
  /\ unique_job_executions (fold_left (apply_operation dec norm) ops db).
Proof.
  intros Hwf.
  assert (H : well_formed (fold_left (apply_operation dec norm) ops db)).
  { revert db Hwf. induction ops as [|o ops IH]; intros db Hwf; simpl;
      [exact Hwf|].
    apply IH. destruct o as [now e | now max_age]; simpl.
    - now apply deliver_well_formed.
    - now apply cleanup_well_formed. }
  split; [exact H | apply H].
Qed.

Lemma uniqueness_kept_by_deliveries_and_cleanups_witness :
  well_formed
    (fold_left (apply_operation two_decimal_places keep)
       [Deliver 9005001 executed_j1; Cleanup 9500000 8;
        Deliver 9600000 executed_j1]
       sample_db)
  /\ unique_job_executions
       (fold_left (apply_operation two_decimal_places keep)
          [Deliver 9005001 executed_j1; Cleanup 9500000 8;
           Deliver 9600000 executed_j1]
          sample_db).
Proof.
  apply (uniqueness_kept_by_deliveries_and_cleanups two_decimal_places keep
           [Deliver 9005001 executed_j1; Cleanup 9500000 8;
            Deliver 9600000 executed_j1] sample_db).
  apply sample_db_well_formed.
Defined.

(** X8: cleanups compose by their cut-off times.  When the cut-off of one
    cleanup ([now] minus [max_age] seconds) is not later than that of
    another, running both, in either order, leaves the table the later
    cut-off alone leaves; in particular a cleanup repeated at the same
    clock reading changes nothing more. *)
Theorem cleanups_compose_by_cutoff
    (db : database) (now1 now2 : datetime) (age1 age2 : Z) :
  now1 - timedelta_seconds age1 <= now2 - timedelta_seconds age2 ->
  delete_old_job_executions (delete_old_job_executions db now1 age1) now2 age2
  = delete_old_job_executions db now2 age2
  /\ delete_old_job_executions (delete_old_job_executions db now2 age2)
                               now1 age1
     = delete_old_job_executions db now2 age2.
Proof.
  intros Hle. unfold delete_old_job_executions. simpl.
  split; f_equal.
  - induction (rows db) as [|a l IH]; simpl; [reflexivity|].
    destruct (Z.leb_spec (run_time a) (now1 - timedelta_seconds age1));
      destruct (Z.leb_spec (run_time a) (now2 - timedelta_seconds age2));
      simpl; try lia.
    + exact IH.
    + destruct (Z.leb_spec (run_time a) (now2 - timedelta_seconds age2));
        simpl; try lia. exact IH.
    + destruct (Z.leb_spec (run_time a) (now2 - timedelta_seconds age2));
        simpl; try lia. now f_equal.
  - induction (rows db) as [|a l IH]; simpl; [reflexivity|].
    destruct (Z.leb_spec (run_time a) (now2 - timedelta_seconds age2));
      simpl; [exact IH|].
    destruct (Z.leb_spec (run_time a) (now1 - timedelta_seconds age1));
      simpl; try lia. now f_equal.
Qed.

Lemma cleanups_compose_by_cutoff_witness :
  delete_old_job_executions (delete_old_job_executions sample_db 5000000 4)
                            9000000 6
  = delete_old_job_executions sample_db 9000000 6
  /\ delete_old_job_executions (delete_old_job_executions sample_db 9000000 6)
                               5000000 4
     = delete_old_job_executions sample_db 9000000 6.
Proof.
  apply (cleanups_compose_by_cutoff sample_db 5000000 9000000 4 6).
  unfold timedelta_seconds. lia.
Defined.

(** X9: the cleanup does not free primary keys.  After a cleanup of a
    well-formed table, whenever a delivery returns a record, found or newly
    created, neither that record nor any row of the resulting table has the
    primary key of a record the cleanup deleted; and the delivery does
    return a record when the job of the event is in the job table.  (For a
    job that is not in the job table the delivery may raise, and then
    nothing is created.) *)
Theorem cleanup_never_frees_primary_keys
    (dec : Q -> Q) (norm : datetime -> datetime) (db : database)
    (now : datetime) (max_age : Z) (now' : datetime) (e : event) :
  well_formed db ->
  (forall db2 r',
     recordEvent dec norm (delete_old_job_executions db now max_age) now' e
       = Ok (db2, r') ->
     forall r, In r (rows db) ->
       ~ In r (rows (delete_old_job_executions db now max_age)) ->
       id r' <> id r /\ (forall x, In x (rows db2) -> id x <> id r))
  /\ (In (ev_job_id e) (jobs db) ->
      exists db2 r',
        recordEvent dec norm (delete_old_job_executions db now max_age) now' e
          = Ok (db2, r')).
Proof.
  intros Hwf.
  pose proof (cleanup_well_formed db now max_age Hwf) as Hwf1.
  assert (Hjobs : jobs (delete_old_job_executions db now max_age) = jobs db)
    by reflexivity.
  assert (Hnext : next_id (delete_old_job_executions db now max_age)
                  = next_id db) by reflexivity.
  set (db1 := delete_old_job_executions db now max_age) in *.
  assert (Hsub : forall x, In x (rows db1) -> In x (rows db)).
  { intros x Hx. unfold db1, delete_old_job_executions in Hx. simpl in Hx.
    apply filter_In in Hx. tauto. }
  assert (Hold : forall r0 r, In r0 (rows db1) -> In r (rows db) ->
                   ~ In r (rows db1) -> id r0 <> id r).
  { intros r0 r Hr0 Hr Hdel Hid.
    assert (r0 = r).
    { apply (NoDup_map_injective id (rows db)); auto. apply Hwf. }
    subst r0. contradiction. }
  destruct e as [j t st exc tb]. unfold recordEvent. simpl. split.
  - intros db2 r' Hok r Hr Hdel.
    destruct (reconcile_cases dec norm db1 now' j t st exc tb Hwf1)
      as [[r0 [Hin [Hj [Ht [Hs Hc]]]]]
         | [[r0 [Hin [Hj [Ht [Hs Hc]]]]] | [[E [Ej Hc]] | [E [Ej Hc]]]]];
      rewrite Hc in Hok; [| | |discriminate Hok];
      injection Hok as <- <-.
    + split; [now apply Hold|]. intros x Hx. now apply Hold.
    + split; [rewrite overwritten_id; now apply Hold|].
      intros x Hx. simpl in Hx. apply update_row_In_inv in Hx.
      destruct Hx as [-> | Hx]; [|now apply Hold].
      rewrite as_stored_id, overwritten_id. now apply Hold.
    + pose proof (ids_below_sequence db r Hwf Hr) as Hlt.
      split; [simpl; lia|].
      intros x Hx. simpl in Hx. apply in_app_or in Hx.
      destruct Hx as [Hx | [<- | []]]; [now apply Hold|].
      simpl. lia.
  - intros Hjob.
    assert (Ej : job_exists db1 j = true)
      by (apply job_exists_In; rewrite Hjobs; exact Hjob).
    destruct (reconcile_returns dec norm db1 now' j t st exc tb Hwf1
                (or_introl Ej)) as [db2 [r' [row [Hc _]]]].
    exists db2, r'. exact Hc.
Qed.

Lemma cleanup_never_frees_primary_keys_witness :
  (forall db2 r',
     recordEvent two_decimal_places keep
                 (delete_old_job_executions sample_db 9000000 8)
                 9500000 executed_j1 = Ok (db2, r') ->
     forall r, In r (rows sample_db) ->
       ~ In r (rows (delete_old_job_executions sample_db 9000000 8)) ->
       id r' <> id r /\ (forall x, In x (rows db2) -> id x <> id r))
  /\ (In "j1" ["j1"; "j2"; "j3"] ->
      exists db2 r',
        recordEvent two_decimal_places keep
                    (delete_old_job_executions sample_db 9000000 8)
                    9500000 executed_j1 = Ok (db2, r')).
Proof.
  apply (cleanup_never_frees_primary_keys two_decimal_places keep sample_db
           9000000 8 9500000 executed_j1).
  apply sample_db_well_formed.
Defined.

(** After the cleanup has deleted the record of [j1] with id 1, the next
    Executed event of that firing is stored under id 3; the instance
    returned holds 9.5 seconds, the decimal columns hold 9.50. *)
Example cleanup_then_delivery_takes_next_key :
  recordEvent two_decimal_places keep
              (delete_old_job_executions sample_db 9000000 8)
              9500000 executed_j1
  = Ok (mkDatabase ["j1"; "j2"; "j3"]
          [row_j2;
           mkExecution 3 "j1" SUCCESS 0 (Some (950 # 100))
                       (Some (950 # 100)) None None] 4,
        mkExecution 3 "j1" SUCCESS 0 (Some (9500000 # 1000000))
                    (Some (9500000 # 1000000)) None None).
Proof. reflexivity. Qed.

(** X21: the cleanup keeps exactly the records younger than [max_age]
    seconds, in their order; a record that is exactly [max_age] seconds old
    is deleted.  It leaves the primary-key sequence where it was. *)
Theorem cleanup_keeps_exactly_the_younger_records
    (db : database) (now : datetime) (max_age : Z) :
  rows (delete_old_job_executions db now max_age) =
    filter (fun r => age now r <? timedelta_seconds max_age) (rows db)
  /\ (forall r, In r (rows db) -> age now r = timedelta_seconds max_age ->
        ~ In r (rows (delete_old_job_executions db now max_age)))
  /\ next_id (delete_old_job_executions db now max_age) = next_id db.
Proof.
  assert (H : rows (delete_old_job_executions db now max_age) =
              filter (fun r => age now r <? timedelta_seconds max_age)
                     (rows db)).
  { unfold delete_old_job_executions, age. simpl. apply filter_ext.
    intros r.
    destruct (Z.leb_spec (run_time r) (now - timedelta_seconds max_age));
      destruct (Z.ltb_spec (now - run_time r) (timedelta_seconds max_age));
      simpl; try reflexivity; lia. }
  split; [exact H|]. split; [|reflexivity].
  intros r Hin Hage Hkept. rewrite H in Hkept.
  apply filter_In in Hkept. destruct Hkept as [_ Hlt].
  apply Z.ltb_lt in Hlt. lia.
Qed.
(** * Further properties of the task registry *)

Section RegistryFacts.

Import Descovertasks.

Context {callable : Type}.

Lemma discover_member_app (tl : list (Task callable)) (m : member callable) :
  discover_member tl m = tl ++ discover_member [] m.
Proof.
  unfold discover_member. destruct (member_object m); simpl;
    [|now rewrite app_nil_r].
  destruct (String.prefix "task_" (member_name m)); simpl;
    [reflexivity | now rewrite app_nil_r].
Qed.

Lemma fold_discover_member_app (ms : list (member callable))
    (tl : list (Task callable)) :
  fold_left discover_member ms tl = tl ++ fold_left discover_member ms [].
Proof.
  revert tl. induction ms as [|m ms IH]; intros tl; simpl.
  - now rewrite app_nil_r.
  - rewrite IH, (IH (discover_member [] m)), (discover_member_app tl m).
    now rewrite app_assoc.
Qed.

Lemma discover_member_In (m : member callable) (t : Task callable) :
  In t (discover_member [] m) ->
  String.prefix "task_" (name t) = true /\ docs t <> ""
  /\ member_name m = name t /\ member_object m = Some (func t).
Proof.
  unfold discover_member. destruct (member_object m) as [f|]; [|intros []].
  destruct (String.prefix "task_" (member_name m)) eqn:P; [|intros []].
  simpl. intros [<- | []]. simpl. repeat split; auto.
  destruct (member_doc m) as [d|].
  - destruct (String.eqb d "") eqn:E.
    + intros H. rewrite H in P. discriminate P.
    + now apply String.eqb_neq.
  - intros H. rewrite H in P. discriminate P.
Qed.

Lemma fold_discover_member_In (ms : list (member callable))
    (t : Task callable) :
  In t (fold_left discover_member ms []) ->
  exists m, In m ms /\ In t (discover_member [] m).
Proof.
  induction ms as [|m ms IH]; simpl; [intros []|].
  rewrite fold_discover_member_app, in_app_iff. intros [H | H].
  - exists m. auto.
  - destruct (IH H) as [m' [Hm' Ht]]. exists m'. auto.
Qed.

Lemma member_discovered (ms : list (member callable)) (m : member callable)
    (f : callable) :
  In m ms -> member_object m = Some f ->
  String.prefix "task_" (member_name m) = true ->
  In (member_name m) (map name (fold_left discover_member ms [])).
Proof.
  induction ms as [|m0 ms IH]; simpl; [intros []|].
  intros Hin Hf Hp. rewrite fold_discover_member_app, map_app, in_app_iff.
  destruct Hin as [-> | Hin].
  - left. unfold discover_member. rewrite Hf, Hp. simpl. now left.
  - right. now apply IH.
Qed.

Lemma discover_tasks_appends
    (apps : list (app callable)) (tl tl' : list (Task callable)) :
  discover_tasks apps tl = Some tl' ->
  exists new,
    tl' = tl ++ new
    /\ forall t, In t new ->
         String.prefix "task_" (name t) = true
         /\ docs t <> ""
         /\ exists a ms m,
              In a apps /\ tasks_import a = imported ms /\ In m ms
              /\ member_name m = name t /\ member_object m = Some (func t).
Proof.
  revert tl tl'. induction apps as [|a apps IH]; intros tl tl'; simpl.
  - intros H. injection H as <-. exists []. split; [now rewrite app_nil_r|].
    intros t [].
  - destruct (tasks_import a) as [| |ms] eqn:E; [|discriminate|].
    + intros H. destruct (IH _ _ H) as [new [-> Hnew]].
      exists new. split; [reflexivity|].
      intros t Ht. destruct (Hnew t Ht) as [Hp [Hd [a' [ms' [m [Ha' H']]]]]].
      repeat split; auto. exists a', ms', m. split; [now right | exact H'].
    + intros H. destruct (IH _ _ H) as [new [-> Hnew]].
      rewrite fold_discover_member_app, <- app_assoc.
      eexists. split; [reflexivity|].
      intros t Ht. apply in_app_or in Ht. destruct Ht as [Ht | Ht].
      * apply fold_discover_member_In in Ht. destruct Ht as [m [Hm Ht]].
        apply discover_member_In in Ht.
        destruct Ht as [Hp [Hd [Hn Hf]]].
        repeat split; auto. exists a, ms, m. repeat split; auto.
      * destruct (Hnew t Ht) as [Hp [Hd [a' [ms' [m [Ha' H']]]]]].
        repeat split; auto. exists a', ms', m. split; [now right | exact H'].
Qed.


Lemma task_func_app_registered (l1 l2 : list (Task callable)) (n : string) :
  registered l1 n -> task_func (l1 ++ l2) n = task_func l1 n.
Proof.
  unfold registered. induction l1 as [|t l1 IH]; simpl; [intros []|].
  intros H. unfold name_is. destruct (String.eqb (name t) n) eqn:E;
    [reflexivity|].
  apply IH. destruct H as [H | H]; [|exact H].
  apply String.eqb_neq in E. contradiction.
Qed.

Lemma task_func_app_unregistered (l1 l2 : list (Task callable)) (n : string) :
  ~ registered l1 n -> task_func (l1 ++ l2) n = task_func l2 n.
Proof.
  unfold registered. induction l1 as [|t l1 IH]; simpl; [reflexivity|].
  intros H. unfold name_is. destruct (String.eqb (name t) n) eqn:E.
  - apply String.eqb_eq in E. exfalso. apply H. now left.
  - apply IH. intros Hi. apply H. now right.
Qed.

Lemma task_func_registered_Some (l : list (Task callable)) (n : string) :
  registered l n -> exists f, task_func l n = Ok (Some f).
Proof.
  unfold registered. induction l as [|t l IH]; simpl; [intros []|].
  intros H. unfold name_is. destruct (String.eqb (name t) n) eqn:E.
  - eexists. reflexivity.
  - apply IH. destruct H as [H | H]; [|exact H].
    apply String.eqb_neq in E. contradiction.
Qed.

Lemma discover_tasks_registers (apps : list (app callable))
    (tl tl' : list (Task callable)) (a : app callable)
    (ms : list (member callable)) (m : member callable) (f : callable) :
  discover_tasks apps tl = Some tl' ->
  In a apps -> tasks_import a = imported ms -> In m ms ->
  member_object m = Some f ->
  String.prefix "task_" (member_name m) = true ->
  registered tl' (member_name m).
Proof.
  revert tl tl'. induction apps as [|a0 apps IH]; intros tl tl' H Ha Hi Hm Hf Hp;
    simpl in *; [contradiction|].
  destruct Ha as [-> | Ha].
  - rewrite Hi in H.
    destruct (discover_tasks_appends apps _ _ H) as [new [-> _]].
    unfold registered. rewrite map_app, in_app_iff. left.
    rewrite fold_discover_member_app, map_app, in_app_iff. right.
    now apply member_discovered with (f := f).
  - destruct (tasks_import a0) as [| |ms0]; [|discriminate|];
      now apply (IH _ _ H).
Qed.

End RegistryFacts.


Lemma task_func_unregistered_None {callable : Type}
    (l : list (Descovertasks.Task callable)) (n : string) :
  ~ Descovertasks.registered l n -> Descovertasks.task_func l n = Ok None.
Proof.
  intros H. rewrite <- (app_nil_r l).
  now rewrite task_func_app_unregistered.
Qed.

(** X11: discovery followed by lookup.  After a discovery into an empty
    registry, every callable member named [task_...] of every imported tasks
    module resolves to a callable, and no name without the prefix [task_]
    resolves. *)
Theorem discovered_tasks_resolve {callable : Type}
    (apps : list (Descovertasks.app callable))
    (tl : list (Descovertasks.Task callable)) :
  Descovertasks.discover_tasks apps [] = Some tl ->
  (forall a ms m f,
     In a apps -> Descovertasks.tasks_import a = Descovertasks.imported ms ->
     In m ms -> Descovertasks.member_object m = Some f ->
     String.prefix "task_" (Descovertasks.member_name m) = true ->
     exists f',
       Descovertasks.task_func tl (Descovertasks.member_name m) = Ok (Some f'))
  /\ (forall n, String.prefix "task_" n = false ->
        Descovertasks.task_func tl n = Ok None).
Proof.
  intros H. split.
  - intros a ms m f Ha Hi Hm Hf Hp.
    apply task_func_registered_Some.
    now apply (discover_tasks_registers apps [] tl a ms m f).
  - intros n Hn. apply task_func_unregistered_None.
    destruct (discover_tasks_appends apps [] tl H) as [new [-> Hnew]].
    simpl. unfold Descovertasks.registered. intros Hi.
    apply in_map_iff in Hi. destruct Hi as [t [Ht Hin]].
    destruct (Hnew t Hin) as [Hp _]. rewrite Ht, Hn in Hp. discriminate Hp.
Qed.

Lemma discovered_tasks_resolve_witness :
  (exists f', Descovertasks.task_func
                [ Descovertasks.mkTask "task_report" 1%nat "daily report";
                  Descovertasks.mkTask "task_purge" 2%nat "task_purge";
                  Descovertasks.mkTask "task_report" 3%nat "task_report" ]
                "task_purge" = Ok (Some f'))
  /\ Descovertasks.task_func
       [ Descovertasks.mkTask "task_report" 1%nat "daily report";
         Descovertasks.mkTask "task_purge" 2%nat "task_purge";
         Descovertasks.mkTask "task_report" 3%nat "task_report" ]
       "helper" = Ok None.
Proof.
  destruct (discovered_tasks_resolve sample_apps
              [ Descovertasks.mkTask "task_report" 1%nat "daily report";
                Descovertasks.mkTask "task_purge" 2%nat "task_purge";
                Descovertasks.mkTask "task_report" 3%nat "task_report" ]
              eq_refl) as [Hyes Hno].
  split.
  - apply (Hyes (Descovertasks.mkApp "cleanup"
                   (Descovertasks.imported
                      [ Descovertasks.mkMember "task_purge" (Some 2%nat) None;
                        Descovertasks.mkMember "task_report" (Some 3%nat)
                                               (Some "") ]))
                [ Descovertasks.mkMember "task_purge" (Some 2%nat) None;
                  Descovertasks.mkMember "task_report" (Some 3%nat) (Some "") ]
                (Descovertasks.mkMember "task_purge" (Some 2%nat) None)
                2%nat).
    + right. right. left. reflexivity.
    + reflexivity.
    + left. reflexivity.
    + reflexivity.
    + reflexivity.
  - apply Hno. reflexivity.
Defined.

(** X12: when the names of the registry are distinct, every task of the
    registry resolves to its own callable. *)
Theorem task_func_finds_each_distinct_task {callable : Type}
    (l : list (Descovertasks.Task callable)) (t : Descovertasks.Task callable) :
  NoDup (map Descovertasks.name l) -> In t l ->
  Descovertasks.task_func l (Descovertasks.name t)
  = Ok (Some (Descovertasks.func t)).
Proof.
  induction l as [|x l IH]; simpl; intros Hnd Hin; [contradiction|].
  inversion Hnd as [|? ? Hx Hl]; subst.
  unfold Descovertasks.name_is.
  destruct Hin as [-> | Hin].
  - now rewrite String.eqb_refl.
  - destruct (String.eqb (Descovertasks.name x) (Descovertasks.name t)) eqn:E.
    + apply String.eqb_eq in E. exfalso. apply Hx. rewrite E.
      now apply in_map.
    + now apply IH.
Qed.

Lemma task_func_finds_each_distinct_task_witness :
  Descovertasks.task_func sample_tasks "task_purge" = Ok (Some 2%nat).
Proof.
  apply (task_func_finds_each_distinct_task sample_tasks
           (Descovertasks.mkTask "task_purge" 2%nat "task_purge")).
  - simpl. repeat constructor; simpl; intuition discriminate.
  - simpl. right. left. reflexivity.
Defined.

(** X13: the first registration of a name wins.  Tasks appended to a
    registry never change what a name already registered resolves to, and a
    name not yet registered resolves as it does in the appended part. *)
Theorem task_func_first_registration_wins {callable : Type}
    (l1 l2 : list (Descovertasks.Task callable)) (n : string) :
  (Descovertasks.registered l1 n ->
   Descovertasks.task_func (l1 ++ l2) n = Descovertasks.task_func l1 n)
  /\ (~ Descovertasks.registered l1 n ->
      Descovertasks.task_func (l1 ++ l2) n = Descovertasks.task_func l2 n).
Proof.
  split.
  - apply task_func_app_registered.
  - apply task_func_app_unregistered.
Qed.

(** X14: a missing tasks module is skipped, any other import error aborts
    the discovery: the discovery fails exactly when the import of some app's
    tasks module raises something other than [ModuleNotFoundError]. *)
Theorem discovery_fails_only_on_import_errors {callable : Type}
    (apps : list (Descovertasks.app callable))
    (tl : list (Descovertasks.Task callable)) :
  Descovertasks.discover_tasks apps tl = None <->
  exists a, In a apps
            /\ Descovertasks.tasks_import a = Descovertasks.import_fails.
Proof.
  revert tl. induction apps as [|a apps IH]; intros tl; simpl.
  - split; [discriminate | intros [a [[] _]]].
  - destruct (Descovertasks.tasks_import a) as [| |ms] eqn:E.
    + rewrite IH. split.
      * intros [a' [Hin H]]. exists a'. auto.
      * intros [a' [[<- | Hin] H]]; [congruence | exists a'; auto].
    + split; [|reflexivity]. intros _. exists a. auto.
    + rewrite IH. split.
      * intros [a' [Hin H]]. exists a'. auto.
      * intros [a' [[<- | Hin] H]]; [congruence | exists a'; auto].
Qed.

(** * Further properties of the run-now action *)

Section RunNowMoreFacts.

Import Admin.

Variable lookup_job : string -> option Job.t.

Lemma warnings_calls_length (queryset : list DjangoJob.t) :
  (List.length (warnings_of lookup_job queryset)
   + List.length (calls_of lookup_job queryset))%nat
  = List.length queryset.
Proof.
  induction queryset as [|item qs IH]; simpl; [reflexivity|].
  rewrite !length_app.
  destruct (lookup_job (DjangoJob.id item)); simpl; lia.
Qed.

Lemma fold_submit_NoDup (queryset : list DjangoJob.t) (s : state) :
  NoDup (_jobs_scheduled s) ->
  NoDup (_jobs_scheduled (fold_left (submit lookup_job) queryset s)).
Proof.
  revert s. induction queryset as [|item qs IH]; intros s H; simpl;
    [exact H|].
  apply IH. unfold submit.
  destruct (lookup_job (DjangoJob.id item)); simpl; [|exact H].
  now apply set_add_nodup.
Qed.

(** X15: the submission loop accounts for every item of the queryset once:
    the warnings and the [add_job] calls together are as many as the items.
    Every call is made with [trigger=None]; [_jobs_scheduled] holds no id
    twice, and holds exactly the ids of the calls made. *)
Theorem run_now_accounts_for_every_item (queryset : list DjangoJob.t) :
  (List.length (messages (run_selected_jobs lookup_job queryset))
   + List.length (scheduler (run_selected_jobs lookup_job queryset)))%nat
  = List.length queryset
  /\ (forall c, In c (scheduler (run_selected_jobs lookup_job queryset)) ->
        trigger c = None)
  /\ NoDup (_jobs_scheduled (run_selected_jobs lookup_job queryset))
  /\ (forall i,
        set_In i (_jobs_scheduled (run_selected_jobs lookup_job queryset))
        <-> In i (map Admin.id
                      (scheduler (run_selected_jobs lookup_job queryset)))).
Proof.
  unfold run_selected_jobs.
  rewrite fold_submit_messages, fold_submit_scheduler. simpl.
  split; [apply warnings_calls_length|]. split; [|split].
  - intros c Hc. unfold calls_of in Hc. apply in_flat_map in Hc.
    destruct Hc as [item [_ Hc]].
    destruct (lookup_job (DjangoJob.id item)); [|destruct Hc].
    destruct Hc as [<- | []]. reflexivity.
  - apply fold_submit_NoDup. constructor.
  - intros i. rewrite fold_submit_scheduled. simpl. split.
    + intros [[] | [item [j [Hin [Hl Hi]]]]].
      apply in_map_iff. exists (call_of j). split; [exact Hi|].
      unfold calls_of. apply in_flat_map. exists item.
      split; [exact Hin|]. rewrite Hl. now left.
    + intros Hi. right. apply in_map_iff in Hi.
      destruct Hi as [c [Hc Hin]]. unfold calls_of in Hin.
      apply in_flat_map in Hin. destruct Hin as [item [Hitem Hin]].
      destruct (lookup_job (DjangoJob.id item)) as [j|] eqn:E; [|destruct Hin].
      destruct Hin as [<- | []]. exists item, j. auto.
Qed.

End RunNowMoreFacts.

Section RunNowWaitFacts.

Import Admin.

Lemma set_subsetb_spec (a b : set string) :
  set_subsetb a b = true <-> (forall i, In i a -> In i b).
Proof.
  unfold set_subsetb. rewrite forallb_forall. split.
  - intros H i Hi. apply (set_mem_correct1 string_dec). now apply H.
  - intros H i Hi. apply set_mem_correct2. now apply H.
Qed.

Lemma set_eqb_spec (a b : set string) :
  set_eqb a b = true <-> (forall i, In i a <-> In i b).
Proof.
  unfold set_eqb. rewrite andb_true_iff, !set_subsetb_spec. split.
  - intros [H1 H2] i. split; auto.
  - intros H. split; intros i; apply H.
Qed.

Variables (timeout : Z) (start_time : datetime) (s : state).

(** X16: when the action gives up, it has read the clock strictly after
    [start_time] plus the timeout while the executed set still differed from
    the scheduled one; it adds one error message, which lists exactly the
    scheduled jobs missing from the executed set, and no message for the
    jobs that did run; the scheduler is shut down without waiting. *)
Theorem run_now_timeout_reports_pending_jobs
    (polls : list poll) (s' : state) :
  wait_for_jobs timeout start_time s polls = Some (s', shutdown_no_wait) ->
  exists p,
    In p polls
    /\ clock p > start_time + timedelta_seconds timeout
    /\ ~ (forall i, In i (_jobs_scheduled s) <-> In i (executed_at_test p))
    /\ messages s' =
       messages s ++
       [mkMessage messages_ERROR
          (max_run_time_exceeded timeout
             (set_diff string_dec (_jobs_scheduled s) (executed_at_report p)))]
    /\ (forall i,
          In i (set_diff string_dec (_jobs_scheduled s) (executed_at_report p))
          <-> In i (_jobs_scheduled s) /\ ~ In i (executed_at_report p))
    /\ scheduler s' = scheduler s
    /\ _jobs_scheduled s' = _jobs_scheduled s.
Proof.
  induction polls as [|p rest IH]; simpl; [discriminate|].
  destruct (set_eqb (_jobs_scheduled s) (executed_at_test p)) eqn:Eq;
    [discriminate|].
  destruct (clock p >? start_time + timedelta_seconds timeout) eqn:Ec.
  - intros H. injection H as <-. exists p. split; [now left|].
    split; [apply Z.gtb_lt in Ec; lia|]. split.
    + intros Hall. apply set_eqb_spec in Hall. congruence.
    + simpl. split; [reflexivity|]. split; [|split; reflexivity].
      intros i. apply set_diff_iff.
  - intros H. destruct (IH H) as [q [Hq Hrest]]. exists q.
    split; [now right | exact Hrest].
Qed.

(** X17: when the action completes, it has seen the executed set equal to
    the scheduled set; it adds one message per job of the executed set as it
    reads it for the report, and no error message; the scheduler is shut
    down gracefully. *)
Theorem run_now_completion_reports_executed_jobs
    (polls : list poll) (s' : state) :
  wait_for_jobs timeout start_time s polls = Some (s', shutdown_wait) ->
  exists p,
    In p polls
    /\ (forall i, In i (_jobs_scheduled s) <-> In i (executed_at_test p))
    /\ messages s' =
       messages s ++
       map (fun job_id => mkMessage messages_INFO (job_executed job_id))
           (executed_at_report p)
    /\ scheduler s' = scheduler s
    /\ _jobs_scheduled s' = _jobs_scheduled s.
Proof.
  induction polls as [|p rest IH]; simpl; [discriminate|].
  destruct (set_eqb (_jobs_scheduled s) (executed_at_test p)) eqn:Eq.
  - intros H. injection H as <-. exists p. split; [now left|].
    split; [now apply set_eqb_spec|]. simpl. auto.
  - destruct (clock p >? start_time + timedelta_seconds timeout);
      [discriminate|].
    intros H. destruct (IH H) as [q [Hq Hrest]]. exists q.
    split; [now right | exact Hrest].
Qed.

(** X18: the action goes on waiting exactly while, at every round, the
    executed set differs from the scheduled set and the clock has not passed
    [start_time] plus the timeout; a reading equal to that deadline is not a
    timeout.  So it ends as soon as a round sees all jobs executed or reads
    a later clock. *)
Theorem run_now_waits_while_pending_and_in_time (polls : list poll) :
  wait_for_jobs timeout start_time s polls = None <->
  forall p, In p polls ->
    ~ (forall i, In i (_jobs_scheduled s) <-> In i (executed_at_test p))
    /\ clock p <= start_time + timedelta_seconds timeout.
Proof.
  induction polls as [|p rest IH]; simpl.
  - split; [intros _ p [] | reflexivity].
  - destruct (set_eqb (_jobs_scheduled s) (executed_at_test p)) eqn:Eq.
    + split; [discriminate|]. intros H.
      destruct (H p (or_introl eq_refl)) as [Hne _].
      exfalso. apply Hne. now apply set_eqb_spec.
    + destruct (clock p >? start_time + timedelta_seconds timeout) eqn:Ec.
      * split; [discriminate|]. intros H.
        destruct (H p (or_introl eq_refl)) as [_ Hle].
        apply Z.gtb_lt in Ec. lia.
      * rewrite IH. split.
        -- intros H q [<- | Hq]; [|now apply H].
           split.
           ++ intros Hall. apply set_eqb_spec in Hall. congruence.
           ++ destruct (Z.gtb_spec (clock p)
                          (start_time + timedelta_seconds timeout));
                [discriminate | lia].
        -- intros H q Hq. apply H. now right.
Qed.

End RunNowWaitFacts.

Lemma run_now_timeout_reports_pending_jobs_witness :
  exists p,
    In p polls_timeout
    /\ Admin.clock p > 0 + timedelta_seconds 15
    /\ ~ (forall i, In i (Admin._jobs_scheduled state_j1_j2)
                    <-> In i (Admin.executed_at_test p))
    /\ Admin.messages
         (Admin.mkState
            [Admin.mkMessage Admin.messages_ERROR
               (Admin.max_run_time_exceeded 15 ["j2"])]
            [Admin.call_of job_j1] ["j1"; "j2"]) =
       Admin.messages state_j1_j2 ++
       [Admin.mkMessage Admin.messages_ERROR
          (Admin.max_run_time_exceeded 15
             (set_diff string_dec (Admin._jobs_scheduled state_j1_j2)
                       (Admin.executed_at_report p)))]
    /\ (forall i,
          In i (set_diff string_dec (Admin._jobs_scheduled state_j1_j2)
                         (Admin.executed_at_report p))
          <-> In i (Admin._jobs_scheduled state_j1_j2)
              /\ ~ In i (Admin.executed_at_report p))
    /\ [Admin.call_of job_j1] = Admin.scheduler state_j1_j2
    /\ ["j1"; "j2"] = Admin._jobs_scheduled state_j1_j2.
Proof.
  apply (run_now_timeout_reports_pending_jobs 15 0 state_j1_j2 polls_timeout
           (Admin.mkState
              [Admin.mkMessage Admin.messages_ERROR
                 (Admin.max_run_time_exceeded 15 ["j2"])]
              [Admin.call_of job_j1] ["j1"; "j2"])).
  reflexivity.
Defined.

Lemma run_now_completion_reports_executed_jobs_witness :
  exists p,
    In p polls_complete
    /\ (forall i, In i (Admin._jobs_scheduled state_j1_j2)
                  <-> In i (Admin.executed_at_test p))
    /\ Admin.messages
         (Admin.mkState
            [Admin.mkMessage Admin.messages_INFO (Admin.job_executed "j2");
             Admin.mkMessage Admin.messages_INFO (Admin.job_executed "j1")]
            [Admin.call_of job_j1] ["j1"; "j2"]) =
       Admin.messages state_j1_j2 ++
       map (fun job_id =>
              Admin.mkMessage Admin.messages_INFO (Admin.job_executed job_id))
           (Admin.executed_at_report p)
    /\ [Admin.call_of job_j1] = Admin.scheduler state_j1_j2
    /\ ["j1"; "j2"] = Admin._jobs_scheduled state_j1_j2.
Proof.
  apply (run_now_completion_reports_executed_jobs 15 0 state_j1_j2
           polls_complete
           (Admin.mkState
              [Admin.mkMessage Admin.messages_INFO (Admin.job_executed "j2");
               Admin.mkMessage Admin.messages_INFO (Admin.job_executed "j1")]
              [Admin.call_of job_j1] ["j1"; "j2"])).
  reflexivity.
Defined.

Section RunNowNothingFound.

Import Admin.

Variable lookup_job : string -> option Job.t.

Lemma fold_submit_all_missing (queryset : list DjangoJob.t) (s : state) :
  (forall item, In item queryset -> lookup_job (DjangoJob.id item) = None) ->
  fold_left (submit lookup_job) queryset s =
  mkState (messages s ++ map not_found_warning queryset) (scheduler s)
          (_jobs_scheduled s).
Proof.
  revert s. induction queryset as [|item qs IH]; intros s H; simpl.
  - rewrite app_nil_r. now destruct s.
  - rewrite IH by (intros x Hx; apply H; now right).
    unfold submit. rewrite (H item (or_introl eq_refl)). simpl.
    now rewrite <- app_assoc.
Qed.

(** X19: when none of the selected jobs is in the job store (the empty
    selection included), nothing is scheduled and the action does not wait:
    with no job executed it ends at the first test of the loop, whatever
    the timeout and the clock, having sent one warning per item and no
    other message, and shuts the scheduler down gracefully. *)
Theorem run_now_with_no_job_found_does_not_wait
    (timeout : Z) (start_time : datetime) (queryset : list DjangoJob.t)
    (p : poll) (polls : list poll) :
  (forall item, In item queryset -> lookup_job (DjangoJob.id item) = None) ->
  executed_at_test p = [] -> executed_at_report p = [] ->
  run_selected_jobs_and_wait lookup_job timeout start_time queryset
                             (p :: polls)
  = Some (mkState (map not_found_warning queryset) [] [], shutdown_wait).
Proof.
  intros Hnone Ht Hr. unfold run_selected_jobs_and_wait, run_selected_jobs.
  rewrite (fold_submit_all_missing queryset initial Hnone). simpl.
  rewrite Ht, Hr. simpl. now rewrite app_nil_r.
Qed.

End RunNowNothingFound.

Lemma run_now_with_no_job_found_does_not_wait_witness :
  Admin.run_selected_jobs_and_wait store_with_j1 0 0
    [DjangoJob.mk "j2" None ""; DjangoJob.mk "j3" None ""]
    [Admin.mkPoll [] 99000000 []]
  = Some (Admin.mkState
            [Admin.not_found_warning (DjangoJob.mk "j2" None "");
             Admin.not_found_warning (DjangoJob.mk "j3" None "")]
            [] [],
          Admin.shutdown_wait).
Proof.
  apply (run_now_with_no_job_found_does_not_wait store_with_j1 0 0
           [DjangoJob.mk "j2" None ""; DjangoJob.mk "j3" None ""]
           (Admin.mkPoll [] 99000000 []) []).
  - intros item [<- | [<- | []]]; reflexivity.
  - reflexivity.
  - reflexivity.
Defined.


(** * The job-registration decorator *)

Section RegJobFacts.

Import Run.

Context {value scheduler : Type}.
Variable str : string -> value.
Variable add_job : scheduler -> add_job_call value -> option scheduler.

Lemma get_app_None (d : dict value) (k : string) (v : value) :
  get d k = None -> get (d ++ [(k, v)]) k = Some v.
Proof.
  induction d as [|[k' v'] d IH]; simpl.
  - intros _. now rewrite String.eqb_refl.
  - destruct (String.eqb k' k); [discriminate | exact IH].
Qed.

Lemma get_app_other (d : dict value) (k k0 : string) (v : value) :
  k0 <> k -> get (d ++ [(k, v)]) k0 = get d k0.
Proof.
  intros Hne. induction d as [|[k' v'] d IH]; simpl.
  - apply not_eq_sym in Hne. apply String.eqb_neq in Hne. now rewrite Hne.
  - destruct (String.eqb k' k0); [reflexivity | exact IH].
Qed.

Lemma setdefault_get (d : dict value) (k : string) (v : value) :
  get (setdefault d k v) k =
  match get d k with Some x => Some x | None => Some v end.
Proof.
  unfold setdefault. destruct (get d k) eqn:E.
  - exact E.
  - now apply get_app_None.
Qed.

Lemma setdefault_twice (d : dict value) (k : string) (v w : value) :
  setdefault (setdefault d k v) k w = setdefault d k v.
Proof.
  unfold setdefault at 1. rewrite setdefault_get.
  destruct (get d k); reflexivity.
Qed.

(** X22: the decorator calls [scheduler.add_job] with the function, the
    positional arguments and the keyword arguments of [reg_job], under the
    [id] given to [reg_job] when there is one, leaving the keyword arguments
    as they are, and otherwise under [module.name] of the function, leaving
    every other keyword argument as it is.  It returns the function it was
    given exactly when [add_job] returns, and raises when [add_job]
    raises; the dictionary of keyword arguments is updated either way. *)
Theorem reg_job_uses_given_id_or_module_and_name
    (args : list value) (kwargs : dict value) (s : scheduler)
    (func : function) :
  exists kwargs',
    wrapper_register_job str add_job args kwargs s func =
    (kwargs', mkCall func args kwargs',
     match add_job s (mkCall func args kwargs') with
     | Some s' => Some (s', func)
     | None => None
     end)
    /\ (forall v, get kwargs "id" = Some v -> kwargs' = kwargs)
    /\ (get kwargs "id" = None ->
        kwargs' =
          kwargs ++ [("id", str (__module__ func ++ "." ++ __name__ func))]
        /\ get kwargs' "id" =
           Some (str (__module__ func ++ "." ++ __name__ func))
        /\ forall k, k <> "id" -> get kwargs' k = get kwargs k).
Proof.
  unfold wrapper_register_job, setdefault.
  eexists. split; [reflexivity|]. split.
  - intros v Hv. now rewrite Hv.
  - intros Hn. rewrite Hn. split; [reflexivity|]. split.
    + now apply get_app_None.
    + intros k Hk. now apply get_app_other.
Qed.


End RegJobFacts.

Lemma id_store_refuses_id_just_added :
  Run.refuses_id_just_added id_store_add_job.
Proof.
  intros s s' c c' Hadd Hid. unfold id_store_add_job in *. rewrite Hid.
  destruct (Run.get (Run.call_kwargs c) "id") as [i|]; [|discriminate Hadd].
  destruct (existsb (String.eqb i) s); [discriminate Hadd|].
  injection Hadd as <-.
  rewrite existsb_app. simpl. rewrite String.eqb_refl.
  now rewrite orb_true_r.
Qed.

Lemma reg_job_uses_given_id_or_module_and_name_witness :
  Run.wrapper_register_job (fun s => s) id_store_add_job ["interval"]
    [("seconds", "3")] [] (Run.mkFunction "app.tasks" "task_a")
  = ([("seconds", "3"); ("id", "app.tasks.task_a")],
     Run.mkCall (Run.mkFunction "app.tasks" "task_a") ["interval"]
                [("seconds", "3"); ("id", "app.tasks.task_a")],
     Some (["app.tasks.task_a"], Run.mkFunction "app.tasks" "task_a"))
  /\ Run.wrapper_register_job (fun s => s) id_store_add_job ["interval"]
       [("id", "nightly")] ["nightly"] (Run.mkFunction "app.tasks" "task_a")
     = ([("id", "nightly")],
        Run.mkCall (Run.mkFunction "app.tasks" "task_a") ["interval"]
                   [("id", "nightly")],
        None).
Proof.
  split.
  - destruct (reg_job_uses_given_id_or_module_and_name (fun s => s)
                id_store_add_job ["interval"] [("seconds", "3")] []
                (Run.mkFunction "app.tasks" "task_a"))
      as [k [Hc [_ Hk]]].
    destruct (Hk eq_refl) as [-> _]. exact Hc.
  - destruct (reg_job_uses_given_id_or_module_and_name (fun s => s)
                id_store_add_job ["interval"] [("id", "nightly")]
                ["nightly"] (Run.mkFunction "app.tasks" "task_a"))
      as [k [Hc [Hk _]]].
    rewrite (Hk "nightly" eq_refl) in Hc. exact Hc.
Defined.

